(** * MLOps production dashboard: a shallow embedding of [streamlit/dashboard.py]

    The script is a straight-line render pass: it asks the active Snowpark
    session to run literal SQL statements, and forwards each result to a
    Streamlit widget.  The embedding keeps that shape.

    - Python values that the script formats or compares are [value]s.
    - A Python exception is the left injection of [result].
    - The render pass is a computation in [M], a writer-plus-error monad
      whose log is the sequence of [event]s of the pass: the statements sent
      to the warehouse and the elements written to the page, in program
      order.  When an exception is raised the log stops there: the script has
      no [try]/[except].
    - The warehouse is reached only through [Session], an oracle answering
      [session.sql(q).collect()] and [session.sql(q).to_pandas()]. *)

From Stdlib Require Import String Ascii List ZArith Bool Lia.
From Stdlib Require Import DecimalString SpecFloat.
Import ListNotations.

Local Open Scope string_scope.
Local Open Scope list_scope.

(** ** Values and exceptions *)

(** The Python objects the script looks into: [None] (an SQL NULL), [int],
    [float] (an IEEE binary64, as the Standard Library's [spec_float]) and
    [str]. *)
Inductive value : Type :=
| VNone
| VInt (z : Z)
| VFloat (f : spec_float)
| VStr (s : string).

(** The exceptions a render pass can end with.  [SnowparkSQLException] stands
    for whatever the session raises when a statement cannot be executed. *)
Inductive exn : Type :=
| IndexError
| KeyError
| TypeError
| ValueError
| OverflowError
| SnowparkSQLException (msg : string).

(** [inl e]: the expression raised [e]; [inr a]: it evaluated to [a]. *)
Definition result (A : Type) : Type := (exn + A)%type.

(** [l[i]] on a Python list. *)
Definition list_getitem {A : Type} (l : list A) (i : nat) : result A :=
  match nth_error l i with
  | Some x => inr x
  | None => inl IndexError
  end.

(** [if l:] on a Python list: a list is true when it is not empty. *)
Definition truthy {A : Type} (l : list A) : bool :=
  match l with
  | [] => false
  | _ :: _ => true
  end.

(** A Snowpark [Row]: named fields in column order. *)
Definition Row : Type := list (string * value).

(** [row['NAME']]: the value of the first field of that name. *)
Fixpoint row_getitem (r : Row) (name : string) : result value :=
  match r with
  | [] => inl KeyError
  | (k, v) :: r' => if String.eqb k name then inr v else row_getitem r' name
  end.

(** ** Number formatting *)

(** [str(z)] for an [int]. *)
Definition str_of_int (z : Z) : string :=
  NilZero.string_of_int (Z.to_int z).

(** Thousands separators, computed on the reversed digits: a comma goes in
    front of every digit that opens a new group of three. *)
Fixpoint group_rev (k : nat) (l : list ascii) : list ascii :=
  match l with
  | [] => []
  | c :: t =>
      match k with
      | O => ","%char :: c :: group_rev 2 t
      | S k' => c :: group_rev k' t
      end
  end.

Definition group_thousands (digits : string) : string :=
  string_of_list_ascii
    (rev (group_rev 3 (rev (list_ascii_of_string digits)))).

Definition sign_prefix (negative : bool) : string :=
  if negative then "-" else "".

(** The digits of an integer with sign and thousands separators: what
    Python's [','] option does to an integer part. *)
Definition comma_int (z : Z) : string :=
  sign_prefix (z <? 0)%Z ++ group_thousands (str_of_int (Z.abs z)).

Definition is_digit (c : ascii) : bool :=
  let n := nat_of_ascii c in (48 <=? n)%nat && (n <=? 57)%nat.

(** A printed number with its separators taken out again. *)
Definition erase_commas (s : string) : string :=
  string_of_list_ascii
    (filter (fun c => negb (Ascii.eqb c ","%char)) (list_ascii_of_string s)).

Definition not_comma (c : ascii) : Prop := c <> ","%char.

(** The characters [str] prints for an [int]. *)
Definition sign_or_digit (c : ascii) : Prop :=
  is_digit c = true \/ c = "-"%char.

(** [float(z)] for an [int]: round to nearest even on 53 bits, and
    [OverflowError] when the result does not fit a binary64. *)
Definition float_of_int (z : Z) : result spec_float :=
  match binary_normalize 53 1024 z 0 false with
  | S754_infinity _ => inl OverflowError
  | f => inr f
  end.

(** The integer nearest to [m * 2^e], ties to even: the digits that the
    ['.0f'] presentation prints for a finite non-zero binary64. *)
Definition round_half_even (m : positive) (e : Z) : Z :=
  if (0 <=? e)%Z then (Zpos m * 2 ^ e)%Z
  else
    let d := (2 ^ (- e))%Z in
    let q := (Zpos m / d)%Z in
    let r := (Zpos m mod d)%Z in
    match (2 * r ?= d)%Z with
    | Lt => q
    | Gt => (q + 1)%Z
    | Eq => if Z.even q then q else (q + 1)%Z
    end.

(** [format(f, ',.0f')] for a [float]. *)
Definition float_comma_0f (f : spec_float) : string :=
  match f with
  | S754_zero s => sign_prefix s ++ "0"
  | S754_infinity s => sign_prefix s ++ "inf"
  | S754_nan => "nan"
  | S754_finite s m e =>
      sign_prefix s ++ group_thousands (str_of_int (round_half_even m e))
  end.

(** [f"{v:,.0f}"]: an [int] is converted to [float] first; [str] and [None]
    reject the format. *)
Definition format_comma_0f (v : value) : result string :=
  match v with
  | VNone => inl TypeError
  | VStr _ => inl ValueError
  | VFloat f => inr (float_comma_0f f)
  | VInt z =>
      match float_of_int z with
      | inl e => inl e
      | inr f => inr (float_comma_0f f)
      end
  end.

(** [int] and [float] objects. *)
Definition is_number (v : value) : bool :=
  match v with
  | VInt _ | VFloat _ => true
  | VNone | VStr _ => false
  end.

(** The leading run of decimal digits of a string, and what follows it. *)
Fixpoint span_digits (s : string) : string * string :=
  match s with
  | String c s' =>
      if is_digit c
      then let (d, rest) := span_digits s' in (String c d, rest)
      else (EmptyString, s)
  | EmptyString => (EmptyString, EmptyString)
  end.

(** The [','] option applied to an already printed number: the sign is kept,
    the integer digits are grouped, the rest (fraction, exponent, [inf],
    [nan]) is left as it is. *)
Definition comma_printed (s : string) : string :=
  match s with
  | String "-" s' =>
      let (d, rest) := span_digits s' in "-" ++ group_thousands d ++ rest
  | _ =>
      let (d, rest) := span_digits s in group_thousands d ++ rest
  end.

(** ** The literal SQL statements, byte for byte as in the script *)

Definition sql_prod_model : string :=
"
    SELECT MODEL_VERSION, MAE, TRAINING_DATE 
    FROM MLOPS_PROD_DB.MODELS.MODEL_REGISTRY 
    WHERE STATUS = 'PRODUCTION' LIMIT 1
".

Definition sql_raw_count : string :=
"SELECT COUNT(*) AS CNT FROM MLOPS_PROD_DB.RAW.RAW_SALES".

Definition sql_feature_count : string :=
"SELECT COUNT(*) AS CNT FROM MLOPS_PROD_DB.FEATURES.FEATURE_STORE".

Definition sql_model_df : string :=
"
    SELECT MODEL_VERSION, MODEL_TYPE, STATUS, TRAINING_DATE, MAE, RMSE, MAPE, NOTES
    FROM MLOPS_PROD_DB.MODELS.MODEL_REGISTRY
    ORDER BY TRAINING_DATE DESC
    LIMIT 10
".

Definition sql_drift_df : string :=
"
        SELECT CHECK_DATE, METRIC_NAME, BASELINE_VALUE, CURRENT_VALUE, DRIFT_SCORE, DRIFT_STATUS
        FROM MLOPS_PROD_DB.MONITORING.DRIFT_METRICS
        ORDER BY CHECK_DATE DESC
        LIMIT 10
    ".

Definition sql_latest_drift : string :=
"
        SELECT DRIFT_STATUS FROM MLOPS_PROD_DB.MONITORING.DRIFT_METRICS 
        WHERE METRIC_NAME = 'Y_MEAN'
        ORDER BY CHECK_DATE DESC LIMIT 1
    ".

Definition sql_comparison_df : string :=
"
    SELECT COMPARISON_DATE, PRODUCTION_MODEL_VERSION, CANDIDATE_MODEL_VERSION,
           PRODUCTION_MAE, CANDIDATE_MAE, IMPROVEMENT_PERCENT, DECISION, DECISION_REASON
    FROM MLOPS_PROD_DB.MODELS.MODEL_COMPARISON_LOG
    ORDER BY COMPARISON_DATE DESC
    LIMIT 10
".

Definition sql_runs_df : string :=
"
    SELECT RUN_TIME, PHASE, STATUS, RECORDS_PROCESSED
    FROM MLOPS_PROD_DB.MONITORING.PIPELINE_RUNS
    ORDER BY RUN_TIME DESC
    LIMIT 10
".

Definition sql_log_df : string :=
"
    SELECT RUN_TIME, NEW_ROWS, TRIGGER_TYPE
    FROM MLOPS_PROD_DB.MONITORING.PIPELINE_RUN_LOG
    ORDER BY RUN_TIME DESC
    LIMIT 10
".

(** The statements in the order the script sends them. *)
Definition all_statements : list string :=
  [ sql_prod_model; sql_raw_count; sql_feature_count; sql_model_df;
    sql_drift_df; sql_latest_drift; sql_comparison_df; sql_runs_df;
    sql_log_df ].

(** The statements the script executes with [.collect()] (lines 19-34 and
    80-84), and those it executes with [.to_pandas()] (lines 46-51, 67-72,
    103-109, 122-127, 140-145). *)
Definition collected_statements : list string :=
  [ sql_prod_model; sql_raw_count; sql_feature_count; sql_latest_drift ].

Definition framed_statements : list string :=
  [ sql_model_df; sql_drift_df; sql_comparison_df; sql_runs_df; sql_log_df ].

(** ** Reading a statement

    What is stated below about the statements is stated about their text,
    and the text is read the simplest way: split at white space, and look at
    the key words. *)

Definition is_space (c : ascii) : bool :=
  let n := nat_of_ascii c in
  (n =? 32)%nat || (n =? 10)%nat || (n =? 9)%nat || (n =? 13)%nat.

Definition flush (cur : string) : list string :=
  match cur with
  | EmptyString => []
  | _ => [cur]
  end.

Fixpoint words_from (cur : string) (s : string) : list string :=
  match s with
  | EmptyString => flush cur
  | String c s' =>
      if is_space c then flush cur ++ words_from EmptyString s'
      else words_from (cur ++ String c EmptyString) s'
  end.

Definition words (s : string) : list string := words_from EmptyString s.

(** The word that follows the first occurrence of [kw]. *)
Fixpoint word_after (kw : string) (ws : list string) : option string :=
  match ws with
  | [] => None
  | w :: rest =>
      if String.eqb w kw then hd_error rest else word_after kw rest
  end.

(** The table a statement selects from. *)
Definition from_table (q : string) : option string :=
  word_after "FROM" (words q).

(** The distinct tables a list of statements selects from, in order of
    first use. *)
Fixpoint tables_read_from (seen : list string) (qs : list string) :
  list string :=
  match qs with
  | [] => []
  | q :: qs' =>
      match from_table q with
      | Some t =>
          if existsb (String.eqb t) seen then tables_read_from seen qs'
          else t :: tables_read_from (t :: seen) qs'
      | None => tables_read_from seen qs'
      end
  end.

Definition tables_read (qs : list string) : list string :=
  tables_read_from [] qs.

(** [ORDER BY col DESC]: the column, when the statement has that clause. *)
Fixpoint order_by_desc_words (ws : list string) : option string :=
  match ws with
  | [] => None
  | w :: rest =>
      match rest with
      | by_ :: col :: desc :: _ =>
          if String.eqb w "ORDER" && String.eqb by_ "BY"
             && String.eqb desc "DESC"
          then Some col
          else order_by_desc_words rest
      | _ => None
      end
  end.

Definition order_by_desc (q : string) : option string :=
  order_by_desc_words (words q).

(** [LIMIT n]: the cap, when the statement has one. *)
Definition limit_rows (q : string) : option nat :=
  match word_after "LIMIT" (words q) with
  | Some w =>
      match NilEmpty.uint_of_string w with
      | Some u => Some (Nat.of_uint u)
      | None => None
      end
  | None => None
  end.

Definition capped_1_or_10 (q : string) : bool :=
  match limit_rows q with
  | Some n => (n =? 1)%nat || (n =? 10)%nat
  | None => false
  end.

Definition ordered_desc_and_capped (q : string) : bool :=
  match order_by_desc q with
  | Some _ => capped_1_or_10 q
  | None => false
  end.

(** Key words that open a statement able to change the warehouse or the
    session. *)
Definition writing_keywords : list string :=
  [ "INSERT"; "UPDATE"; "DELETE"; "MERGE"; "TRUNCATE"; "CREATE"; "REPLACE";
    "DROP"; "UNDROP"; "ALTER"; "COPY"; "PUT"; "REMOVE"; "GRANT"; "REVOKE";
    "CALL"; "EXECUTE"; "USE"; "SET"; "UNSET"; "INTO"; "COMMIT"; "ROLLBACK" ].

Fixpoint has_char (c : ascii) (s : string) : bool :=
  match s with
  | EmptyString => false
  | String c' s' => Ascii.eqb c c' || has_char c s'
  end.

(** One statement, opening with [SELECT], with no writing key word. *)
Definition is_read_only_select (q : string) : bool :=
  match words q with
  | w :: _ => String.eqb w "SELECT"
  | [] => false
  end
  && forallb (fun w => negb (existsb (String.eqb w) writing_keywords))
       (words q)
  && negb (has_char ";"%char q).

(** A statement with no place for a bound parameter: no [?] and no [:name]
    or [%s] marker. *)
Definition is_parameterless (q : string) : bool :=
  negb (has_char "?"%char q) && negb (has_char ":"%char q)
  && negb (has_char "%"%char q) && negb (has_char "{"%char q).

(** *** The plain [SELECT]s

    A statement is plain when it is, word for word,

      [SELECT] columns [FROM] table ([WHERE] column [=] 'TEXT')?
      ([ORDER BY] column [DESC])? ([LIMIT] digits)?

    where the columns are either the count of all rows, [AS] a name, or
    names separated by commas; a name is made of capital letters and
    underscores, and a table is made of names joined by dots.  Such a
    statement calls no function besides that count, reads no sequence, and
    names one table: executing it reads rows and changes nothing. *)

Fixpoint all_chars (p : ascii -> bool) (s : string) : bool :=
  match s with
  | EmptyString => true
  | String c s' => p c && all_chars p s'
  end.

Definition is_name_char (c : ascii) : bool :=
  let n := nat_of_ascii c in
  ((65 <=? n)%nat && (n <=? 90)%nat) || (n =? 95)%nat.

Definition is_name (w : string) : bool :=
  match w with
  | EmptyString => false
  | _ => all_chars is_name_char w
  end.

Definition is_table_name (w : string) : bool :=
  match w with
  | EmptyString => false
  | _ => all_chars (fun c => is_name_char c || Ascii.eqb c "."%char) w
  end.

(** [w] without its last character, when that character is [c]. *)
Fixpoint before_last (c : ascii) (w : string) : option string :=
  match w with
  | EmptyString => None
  | String x EmptyString => if Ascii.eqb x c then Some EmptyString else None
  | String x w' =>
      match before_last c w' with
      | Some p => Some (String x p)
      | None => None
      end
  end.

Definition is_text_literal (w : string) : bool :=
  match w with
  | String q w' =>
      Ascii.eqb q "'"%char
      && match before_last "'"%char w' with
         | Some body => all_chars is_name_char body
         | None => false
         end
  | EmptyString => false
  end.

(** The words left after a list of names separated by commas. *)
Fixpoint after_columns (ws : list string) : option (list string) :=
  match ws with
  | [] => None
  | w :: rest =>
      if is_name w then Some rest
      else match before_last ","%char w with
           | Some name => if is_name name then after_columns rest else None
           | None => None
           end
  end.

Definition after_select_list (ws : list string) : option (list string) :=
  match ws with
  | w1 :: w2 :: w3 :: rest =>
      if String.eqb w1 "COUNT(*)"
      then if String.eqb w2 "AS" && is_name w3 then Some rest else None
      else after_columns ws
  | _ => after_columns ws
  end.

Definition after_where (ws : list string) : option (list string) :=
  match ws with
  | w :: rest =>
      if String.eqb w "WHERE" then
        match rest with
        | col :: eq :: lit :: rest' =>
            if is_name col && String.eqb eq "=" && is_text_literal lit
            then Some rest' else None
        | _ => None
        end
      else Some ws
  | [] => Some []
  end.

Definition after_order_by (ws : list string) : option (list string) :=
  match ws with
  | w :: rest =>
      if String.eqb w "ORDER" then
        match rest with
        | by_ :: col :: desc :: rest' =>
            if String.eqb by_ "BY" && is_name col && String.eqb desc "DESC"
            then Some rest' else None
        | _ => None
        end
      else Some ws
  | [] => Some []
  end.

Definition after_limit (ws : list string) : option (list string) :=
  match ws with
  | w :: rest =>
      if String.eqb w "LIMIT" then
        match rest with
        | n :: rest' =>
            match n with
            | EmptyString => None
            | _ => if all_chars is_digit n then Some rest' else None
            end
        | [] => None
        end
      else Some ws
  | [] => Some []
  end.

Definition is_plain_select (q : string) : bool :=
  match words q with
  | w :: ws =>
      String.eqb w "SELECT"
      && match after_select_list ws with
         | Some (from :: table :: tail) =>
             String.eqb from "FROM" && is_table_name table
             && match after_where tail with
                | Some t1 =>
                    match after_order_by t1 with
                    | Some t2 =>
                        match after_limit t2 with
                        | Some [] => true
                        | _ => false
                        end
                    | None => false
                    end
                | None => false
                end
         | _ => false
         end
  | [] => false
  end.

(** [needle in haystack] on Python strings. *)
Fixpoint starts_with (p s : string) : bool :=
  match p, s with
  | EmptyString, _ => true
  | String a p', String b s' => Ascii.eqb a b && starts_with p' s'
  | String _ _, EmptyString => false
  end.

Fixpoint contains (needle hay : string) : bool :=
  starts_with needle hay
  || match hay with
     | EmptyString => false
     | String _ hay' => contains needle hay'
     end.

(** ** The page, the session and the render pass *)

Section Dashboard.

(** What a [pandas] cell holds is never inspected by the script. *)
Variable cell : Type.

(** [repr] of a [float] (shortest digits that read back to the same
    binary64): part of the Python runtime, used by [str] and by the bare
    [','] format of a [float]. *)
Variable float_repr : spec_float -> string.

(** A [pandas.DataFrame]: column names and rows; [len(df)] counts rows. *)
Record DataFrame : Type := mkDataFrame {
  df_columns : list string;
  df_rows : list (list cell)
}.

Definition len (df : DataFrame) : nat := length (df_rows df).

(** What [session.sql(q)] answers when it is executed, by [.collect()] or by
    [.to_pandas()]. *)
Record Session : Type := mkSession {
  sql_collect : string -> result (list Row);
  sql_to_pandas : string -> result DataFrame
}.

(** The Streamlit calls of the script. *)
Inductive element : Type :=
| SetPageConfig (page_title layout : string)
| Title (body : string)
| Markdown (body : string)
| Subheader (body : string)
| Caption (body : string)
| Columns (n : nat)
| Metric (label : string) (v : value)
| Dataframe (data : DataFrame) (use_container_width : bool)
| Info (body : string)
| Success (body : string)
| Warning (body : string)
| Error (body : string).

(** Where an element goes: the page itself, or column [i] (from 1, as in
    [col1], [col2], ...) of the last [st.columns]. *)
Inductive container : Type :=
| Page
| Column (i : nat).

(** One step of a render pass seen from outside. *)
Inductive event : Type :=
| Sql (q : string)
| Draw (c : container) (el : element).

(** A computation: the events it produced, and its value or the exception
    that stopped it. *)
Definition M (A : Type) : Type := (list event * result A)%type.

Definition ret {A : Type} (a : A) : M A := ([], inr a).

Definition bind {A B : Type} (m : M A) (k : A -> M B) : M B :=
  match m with
  | (log, inl e) => (log, inl e)
  | (log, inr a) => let (log', r) := k a in (log ++ log', r)
  end.

Notation "x <- m ;; k" := (bind m (fun x => k))
  (at level 61, m at next level, right associativity).
Notation "m ;; k" := (bind m (fun _ => k))
  (at level 61, right associativity).

(** An expression that may raise. *)
Definition eval {A : Type} (r : result A) : M A := ([], r).

Definition draw (c : container) (el : element) : M unit :=
  ([Draw c el], inr tt).

Definition collect (session : Session) (q : string) : M (list Row) :=
  ([Sql q], sql_collect session q).

Definition to_pandas (session : Session) (q : string) : M DataFrame :=
  ([Sql q], sql_to_pandas session q).

(** [str(v)], which is what [f"{v}"] prints. *)
Definition str (v : value) : string :=
  match v with
  | VNone => "None"
  | VInt z => str_of_int z
  | VFloat f => float_repr f
  | VStr s => s
  end.

(** [v == 'literal']. *)
Definition eq_str (v : value) (s : string) : bool :=
  match v with
  | VStr t => String.eqb t s
  | _ => false
  end.

(** [f"{v:,}"]. *)
Definition format_comma (v : value) : result string :=
  match v with
  | VNone => inl TypeError
  | VStr _ => inl ValueError
  | VInt z => inr (comma_int z)
  | VFloat f => inr (comma_printed (float_repr f))
  end.

(** Lines 18-30: the production model metrics. *)
Definition production_model (session : Session) : M unit :=
  prod_model <- collect session sql_prod_model ;;
  if truthy prod_model then
    r <- eval (list_getitem prod_model 0) ;;
    version <- eval (row_getitem r "MODEL_VERSION") ;;
    draw (Column 1) (Metric "🏆 Production Model" version) ;;
    r <- eval (list_getitem prod_model 0) ;;
    mae <- eval (row_getitem r "MAE") ;;
    text <- eval (format_comma_0f mae) ;;
    draw (Column 2) (Metric "📊 MAE" (VStr text))
  else
    draw (Column 1) (Metric "🏆 Production Model" (VStr "None")) ;;
    draw (Column 2) (Metric "📊 MAE" (VStr "N/A")).

(** Lines 32-37: the two record counts.  Both statements are executed and
    indexed before either metric is drawn. *)
Definition data_counts (session : Session) : M unit :=
  rows <- collect session sql_raw_count ;;
  r <- eval (list_getitem rows 0) ;;
  raw_count <- eval (row_getitem r "CNT") ;;
  rows <- collect session sql_feature_count ;;
  r <- eval (list_getitem rows 0) ;;
  feature_count <- eval (row_getitem r "CNT") ;;
  text <- eval (format_comma raw_count) ;;
  draw (Column 3) (Metric "📁 Raw Records" (VStr text)) ;;
  text <- eval (format_comma feature_count) ;;
  draw (Column 4) (Metric "🔧 Features" (VStr text)).

(** Lines 46-56. *)
Definition model_history (session : Session) : M unit :=
  model_df <- to_pandas session sql_model_df ;;
  if (0 <? len model_df)%nat
  then draw Page (Dataframe model_df true)
  else draw Page (Info "No models trained yet").

(** Lines 66-77, inside [with col1:]. *)
Definition drift_metrics (session : Session) : M unit :=
  drift_df <- to_pandas session sql_drift_df ;;
  if (0 <? len drift_df)%nat
  then draw (Column 1) (Dataframe drift_df true)
  else draw (Column 1) (Info "No drift data yet").

(** Lines 79-95, inside [with col2:]. *)
Definition latest_drift_status (session : Session) : M unit :=
  latest_drift <- collect session sql_latest_drift ;;
  if truthy latest_drift then
    r <- eval (list_getitem latest_drift 0) ;;
    status <- eval (row_getitem r "DRIFT_STATUS") ;;
    if eq_str status "NORMAL" || eq_str status "BASELINE" then
      draw (Column 2) (Success ("✅ Drift Status: " ++ str status))
    else if eq_str status "WARNING" then
      draw (Column 2) (Warning ("⚠️ Drift Status: " ++ str status))
    else
      draw (Column 2) (Error ("🚨 Drift Status: " ++ str status))
  else
    draw (Column 2) (Info "No drift data").

(** Lines 103-114. *)
Definition comparison_log (session : Session) : M unit :=
  comparison_df <- to_pandas session sql_comparison_df ;;
  if (0 <? len comparison_df)%nat
  then draw Page (Dataframe comparison_df true)
  else draw Page (Info "No comparisons logged yet").

(** Lines 122-132. *)
Definition pipeline_runs (session : Session) : M unit :=
  runs_df <- to_pandas session sql_runs_df ;;
  if (0 <? len runs_df)%nat
  then draw Page (Dataframe runs_df true)
  else draw Page (Info "No pipeline runs yet").

(** Lines 140-150. *)
Definition data_load_triggers (session : Session) : M unit :=
  log_df <- to_pandas session sql_log_df ;;
  if (0 <? len log_df)%nat
  then draw Page (Dataframe log_df true)
  else draw Page (Info "No data load triggers yet").

(** The whole script, top to bottom, once the session is at hand. *)
Definition dashboard (session : Session) : M unit :=
  draw Page (SetPageConfig "MLOps Dashboard" "wide") ;;
  draw Page (Title "🚀 MLOps Production Dashboard") ;;
  draw Page (Markdown "---") ;;
  draw Page (Columns 4) ;;
  production_model session ;;
  data_counts session ;;
  draw Page (Markdown "---") ;;
  draw Page (Subheader "📈 Model Training History") ;;
  model_history session ;;
  draw Page (Markdown "---") ;;
  draw Page (Subheader "🔍 Data Drift Monitoring") ;;
  draw Page (Columns 2) ;;
  drift_metrics session ;;
  latest_drift_status session ;;
  draw Page (Markdown "---") ;;
  draw Page (Subheader "⚖️ Model Comparison History") ;;
  comparison_log session ;;
  draw Page (Markdown "---") ;;
  draw Page (Subheader "🔄 Pipeline Run History") ;;
  pipeline_runs session ;;
  draw Page (Markdown "---") ;;
  draw Page (Subheader "📥 Data Load Triggers") ;;
  data_load_triggers session ;;
  draw Page (Markdown "---") ;;
  draw Page
    (Caption "MLOps Production Pipeline Dashboard | Auto-refreshes with new data").

(** ** The panels, as the properties below quantify over them *)

(** The five panels that hand a [DataFrame] to [st.dataframe]. *)
Inductive table_panel : Type :=
| ModelHistory
| DriftMetrics
| ComparisonLog
| PipelineRuns
| DataLoadTriggers.

Definition table_render (p : table_panel) : Session -> M unit :=
  match p with
  | ModelHistory => model_history
  | DriftMetrics => drift_metrics
  | ComparisonLog => comparison_log
  | PipelineRuns => pipeline_runs
  | DataLoadTriggers => data_load_triggers
  end.

Definition table_statement (p : table_panel) : string :=
  match p with
  | ModelHistory => sql_model_df
  | DriftMetrics => sql_drift_df
  | ComparisonLog => sql_comparison_df
  | PipelineRuns => sql_runs_df
  | DataLoadTriggers => sql_log_df
  end.

Definition table_container (p : table_panel) : container :=
  match p with
  | DriftMetrics => Column 1
  | _ => Page
  end.

Definition table_placeholder (p : table_panel) : string :=
  match p with
  | ModelHistory => "No models trained yet"
  | DriftMetrics => "No drift data yet"
  | ComparisonLog => "No comparisons logged yet"
  | PipelineRuns => "No pipeline runs yet"
  | DataLoadTriggers => "No data load triggers yet"
  end.

(** Executing [q] fails with [e]: the call by which the script executes
    [q] raises [e].  What the other call would do does not matter. *)
Definition fails (session : Session) (q : string) (e : exn) : Prop :=
  (In q collected_statements /\ sql_collect session q = inl e)
  \/ (In q framed_statements /\ sql_to_pandas session q = inl e).

(** [session], except that [.collect()] raises [e] for [q]; [.to_pandas()]
    is left as it is. *)
Definition collect_failing_at (q : string) (e : exn) (session : Session) :
  Session :=
  {| sql_collect := fun q' =>
       if String.eqb q' q then inl e else sql_collect session q';
     sql_to_pandas := sql_to_pandas session |}.

(** [session], except that [.to_pandas()] raises [e] for [q]; [.collect()]
    is left as it is. *)
Definition to_pandas_failing_at (q : string) (e : exn)
           (session : Session) : Session :=
  {| sql_collect := sql_collect session;
     sql_to_pandas := fun q' =>
       if String.eqb q' q then inl e else sql_to_pandas session q' |}.

(** [session], except that executing [q] raises [e]. *)
Definition failing_at (q : string) (e : exn) (session : Session) : Session :=
  {| sql_collect := fun q' =>
       if String.eqb q' q then inl e else sql_collect session q';
     sql_to_pandas := fun q' =>
       if String.eqb q' q then inl e else sql_to_pandas session q' |}.

(** The severity of a status callout. *)
Inductive severity : Type :=
| Informational
| Positive
| Cautionary
| Critical.

Definition callout_severity (el : element) : option severity :=
  match el with
  | Info _ => Some Informational
  | Success _ => Some Positive
  | Warning _ => Some Cautionary
  | Error _ => Some Critical
  | _ => None
  end.

Definition is_widget_for_rows (el : element) : bool :=
  match el with
  | Metric _ _ => true
  | Dataframe _ _ => true
  | _ => false
  end.

(** ** Reading a log *)

Definition events {A : Type} (m : M A) : list event := fst m.

Definition outcome {A : Type} (m : M A) : result A := snd m.

(** The statements a log sent to the warehouse, in order. *)
Fixpoint statements (log : list event) : list string :=
  match log with
  | [] => []
  | Sql q :: log' => q :: statements log'
  | Draw _ _ :: log' => statements log'
  end.

(** The elements a log wrote, in order. *)
Fixpoint drawn (log : list event) : list (container * element) :=
  match log with
  | [] => []
  | Sql _ :: log' => drawn log'
  | Draw c el :: log' => (c, el) :: drawn log'
  end.

(** A log whose only element is one informational notice. *)
Definition placeholder_only (log : list event) : Prop :=
  exists c text, drawn log = [(c, Info text)].

(** [m] sends the statements [l], in that order and no other: all of them
    when it completes, and the first few of them when it raises. *)
Definition issues {A : Type} (l : list string) (m : M A) : Prop :=
  (exists rest, l = statements (events m) ++ rest)
  /\ (forall a, outcome m = inr a -> statements (events m) = l).

(** In [m], a statement whose execution fails is the last thing that
    happens, and its exception is the outcome. *)
Definition stops_at_failure {A : Type} (session : Session) (m : M A) : Prop :=
  forall q e,
    In (Sql q) (events m) -> fails session q e ->
    outcome m = inl e /\ exists before, events m = before ++ [Sql q].

(** Every frame drawn in [log] is the answer of the session to a statement
    sent earlier in [log]. *)
Definition frames_as_fetched (session : Session) (log : list event) : Prop :=
  forall c df b,
    In (Draw c (Dataframe df b)) log ->
    exists q, In (Sql q) log /\ sql_to_pandas session q = inr df.

(** What an element shows is what the session returned for the statement
    behind it: a metric shows a field of row 0 (the version as it is, the
    numbers as printed by their format) or, for want of a production row,
    its fixed text; a frame is a frame the session returned; a status
    callout ends with the status of row 0.  Headings, rules and notices
    carry no data. *)
Definition shows_fetched (session : Session) (ev : event) : Prop :=
  match ev with
  | Draw _ (Metric label v) =>
      (label = "🏆 Production Model"
       /\ ((sql_collect session sql_prod_model = inr [] /\ v = VStr "None")
           \/ exists r rest,
               sql_collect session sql_prod_model = inr (r :: rest)
               /\ row_getitem r "MODEL_VERSION" = inr v))
      \/ (label = "📊 MAE"
          /\ ((sql_collect session sql_prod_model = inr [] /\ v = VStr "N/A")
              \/ exists r rest mae text,
                  sql_collect session sql_prod_model = inr (r :: rest)
                  /\ row_getitem r "MAE" = inr mae
                  /\ format_comma_0f mae = inr text
                  /\ v = VStr text))
      \/ (label = "📁 Raw Records"
          /\ exists r rest cnt text,
              sql_collect session sql_raw_count = inr (r :: rest)
              /\ row_getitem r "CNT" = inr cnt
              /\ format_comma cnt = inr text
              /\ v = VStr text)
      \/ (label = "🔧 Features"
          /\ exists r rest cnt text,
              sql_collect session sql_feature_count = inr (r :: rest)
              /\ row_getitem r "CNT" = inr cnt
              /\ format_comma cnt = inr text
              /\ v = VStr text)
  | Draw _ (Dataframe df _) =>
      exists q, In q framed_statements /\ sql_to_pandas session q = inr df
  | Draw _ (Success text) | Draw _ (Warning text) | Draw _ (Error text) =>
      exists r rest status marker,
        sql_collect session sql_latest_drift = inr (r :: rest)
        /\ row_getitem r "DRIFT_STATUS" = inr status
        /\ text = (marker ++ str status)%string
  | _ => True
  end.

(** ** One pass against another *)

(** [log] up to and including the first time it sends [q]; all of [log]
    when it never does. *)
Fixpoint cut_at (q : string) (log : list event) : list event :=
  match log with
  | [] => []
  | Sql q' :: log' =>
      if String.eqb q' q then [Sql q'] else Sql q' :: cut_at q log'
  | Draw c el :: log' => Draw c el :: cut_at q log'
  end.

Fixpoint sends (q : string) (log : list event) : bool :=
  match log with
  | [] => false
  | Sql q' :: log' => String.eqb q' q || sends q log'
  | Draw _ _ :: log' => sends q log'
  end.

(** Two answers of [.collect()] that indexing row 0 cannot tell apart. *)
Definition same_head (a b : result (list Row)) : Prop :=
  match a, b with
  | inl e, inl e' => e = e'
  | inr [], inr [] => True
  | inr (r :: _), inr (r' :: _) => r = r'
  | _, _ => False
  end.

(** [m'] is [m] stopped by [e] where [m] first sends [q], and [m] itself
    when [m] never sends [q]. *)
Definition truncated_at {A : Type} (q : string) (e : exn) (m m' : M A) :
  Prop :=
  if sends q (events m) then m' = (cut_at q (events m), inl e) else m' = m.

(** [session] with [extra] rows after the rows of every non-empty answer of
    [.collect()]. *)
Definition pad_rows (extra : list Row) (session : Session) : Session :=
  {| sql_collect := fun q =>
       match sql_collect session q with
       | inr (r :: rest) => inr (r :: rest ++ extra)
       | other => other
       end;
     sql_to_pandas := sql_to_pandas session |}.

(** The header and the logs of the panels, one after the other, as the
    script lists them. *)
Definition all_panels_log (session : Session) : list event :=
  [ Draw Page (SetPageConfig "MLOps Dashboard" "wide");
    Draw Page (Title "🚀 MLOps Production Dashboard");
    Draw Page (Markdown "---");
    Draw Page (Columns 4) ]
  ++ events (production_model session)
  ++ events (data_counts session)
  ++ [ Draw Page (Markdown "---");
       Draw Page (Subheader "📈 Model Training History") ]
  ++ events (model_history session)
  ++ [ Draw Page (Markdown "---");
       Draw Page (Subheader "🔍 Data Drift Monitoring");
       Draw Page (Columns 2) ]
  ++ events (drift_metrics session)
  ++ events (latest_drift_status session)
  ++ [ Draw Page (Markdown "---");
       Draw Page (Subheader "⚖️ Model Comparison History") ]
  ++ events (comparison_log session)
  ++ [ Draw Page (Markdown "---");
       Draw Page (Subheader "🔄 Pipeline Run History") ]
  ++ events (pipeline_runs session)
  ++ [ Draw Page (Markdown "---");
       Draw Page (Subheader "📥 Data Load Triggers") ]
  ++ events (data_load_triggers session)
  ++ [ Draw Page (Markdown "---");
       Draw Page
         (Caption
            "MLOps Production Pipeline Dashboard | Auto-refreshes with new data") ].

(** [session], except that [.collect()] answers [rows] for [q]. *)
Definition with_rows (q : string) (rows : list Row) (session : Session) :
  Session :=
  {| sql_collect := fun q' =>
       if String.eqb q' q then inr rows else sql_collect session q';
     sql_to_pandas := sql_to_pandas session |}.

(** [session], except that [.to_pandas()] answers [df] for [q]. *)
Definition with_frame (q : string) (df : DataFrame) (session : Session) :
  Session :=
  {| sql_collect := sql_collect session;
     sql_to_pandas := fun q' =>
       if String.eqb q' q then inr df else sql_to_pandas session q' |}.

(** ** What a pass needs from the warehouse *)

Definition is_ok {A : Type} (r : result A) : bool :=
  match r with
  | inr _ => true
  | inl _ => false
  end.

(** The production-model statement is answered, with no row or with a row 0
    that has both fields and an [MAE] that ['.0f'] accepts. *)
Definition production_model_ok (session : Session) : bool :=
  match sql_collect session sql_prod_model with
  | inl _ => false
  | inr [] => true
  | inr (r :: _) =>
      match row_getitem r "MODEL_VERSION", row_getitem r "MAE" with
      | inr _, inr mae => is_ok (format_comma_0f mae)
      | _, _ => false
      end
  end.

(** A count statement is answered with a row 0 whose [CNT] is a number. *)
Definition count_ok (session : Session) (q : string) : bool :=
  match sql_collect session q with
  | inr (r :: _) =>
      match row_getitem r "CNT" with
      | inr v => is_number v
      | inl _ => false
      end
  | _ => false
  end.

(** The latest-drift statement is answered, with no row or with a row 0
    that has a [DRIFT_STATUS]. *)
Definition latest_drift_ok (session : Session) : bool :=
  match sql_collect session sql_latest_drift with
  | inl _ => false
  | inr [] => true
  | inr (r :: _) => is_ok (row_getitem r "DRIFT_STATUS")
  end.

Definition table_ok (session : Session) (p : table_panel) : bool :=
  is_ok (sql_to_pandas session (table_statement p)).

Definition renders_fully (session : Session) : bool :=
  production_model_ok session
  && count_ok session sql_raw_count
  && count_ok session sql_feature_count
  && table_ok session ModelHistory
  && table_ok session DriftMetrics
  && latest_drift_ok session
  && table_ok session ComparisonLog
  && table_ok session PipelineRuns
  && table_ok session DataLoadTriggers.

(** What a table panel puts in its place: the frame or a notice. *)
Definition is_table_slot (el : element) : bool :=
  match el with
  | Dataframe _ true => true
  | Info _ => true
  | _ => false
  end.

End Dashboard.

Arguments mkDataFrame {cell} df_columns df_rows.
Arguments df_columns {cell} d.
Arguments df_rows {cell} d.
Arguments len {cell} df.
Arguments mkSession {cell} sql_collect sql_to_pandas.
Arguments sql_collect {cell} s q.
Arguments sql_to_pandas {cell} s q.
Arguments SetPageConfig {cell} page_title layout.
Arguments Title {cell} body.
Arguments Markdown {cell} body.
Arguments Subheader {cell} body.
Arguments Caption {cell} body.
Arguments Columns {cell} n.
Arguments Metric {cell} label v.
Arguments Dataframe {cell} data use_container_width.
Arguments Info {cell} body.
Arguments Success {cell} body.
Arguments Warning {cell} body.
Arguments Error {cell} body.
Arguments Sql {cell} q.
Arguments Draw {cell} c el.
Arguments ret {cell A} a.
Arguments bind {cell A B} m k.
Arguments eval {cell A} r.
Arguments draw {cell} c el.
Arguments collect {cell} session q.
Arguments to_pandas {cell} session q.
Arguments production_model {cell} session.
Arguments data_counts {cell} float_repr session.
Arguments model_history {cell} session.
Arguments drift_metrics {cell} session.
Arguments latest_drift_status {cell} float_repr session.
Arguments comparison_log {cell} session.
Arguments pipeline_runs {cell} session.
Arguments data_load_triggers {cell} session.
Arguments dashboard {cell} float_repr session.
Arguments table_render {cell} p session.
Arguments fails {cell} session q e.
Arguments failing_at {cell} q e session.
Arguments collect_failing_at {cell} q e session.
Arguments to_pandas_failing_at {cell} q e session.
Arguments callout_severity {cell} el.
Arguments is_widget_for_rows {cell} el.
Arguments events {cell A} m.
Arguments outcome {cell A} m.
Arguments statements {cell} log.
Arguments drawn {cell} log.
Arguments placeholder_only {cell} log.
Arguments issues {cell A} l m.
Arguments stops_at_failure {cell A} session m.
Arguments frames_as_fetched {cell} session log.
Arguments shows_fetched {cell} float_repr session ev.
Arguments cut_at {cell} q log.
Arguments truncated_at {cell A} q e m m'.
Arguments pad_rows {cell} extra session.
Arguments with_rows {cell} q rows session.
Arguments with_frame {cell} q df session.
Arguments all_panels_log {cell} float_repr session.
Arguments sends {cell} q log.
Arguments production_model_ok {cell} session.
Arguments count_ok {cell} session q.
Arguments latest_drift_ok {cell} session.
Arguments table_ok {cell} session p.
Arguments renders_fully {cell} session.
Arguments is_table_slot {cell} el.

(** ** Sample warehouses *)

(** A reading of [float_repr] for sessions in which no [float] is printed
    through it. *)
Definition repr_unused : spec_float -> string := fun _ => "nan".

Definition demo_frame (names : list string) (rows : list (list value)) :
  DataFrame value :=
  mkDataFrame names rows.

(** A warehouse with a production model, integer counts, a few rows in every
    table and a latest drift status of [WARNING]. *)
Definition demo_session : Session value :=
  {| sql_collect := fun q =>
       if String.eqb q sql_prod_model then
         inr [[("MODEL_VERSION", VStr "v7"); ("MAE", VInt 1234567);
               ("TRAINING_DATE", VStr "2024-05-01")]]
       else if String.eqb q sql_raw_count then
         inr [[("CNT", VInt 2500000)]]
       else if String.eqb q sql_feature_count then
         inr [[("CNT", VInt 48000)]]
       else if String.eqb q sql_latest_drift then
         inr [[("DRIFT_STATUS", VStr "WARNING")]]
       else inl (SnowparkSQLException "unknown statement");
     sql_to_pandas := fun q =>
       if String.eqb q sql_model_df then
         inr (demo_frame ["MODEL_VERSION"; "MAE"]
                [[VStr "v7"; VInt 1234567]; [VStr "v6"; VInt 1300000]])
       else if String.eqb q sql_drift_df then
         inr (demo_frame ["METRIC_NAME"; "DRIFT_STATUS"]
                [[VStr "Y_MEAN"; VStr "WARNING"];
                 [VStr "Y_STD"; VStr "NORMAL"];
                 [VStr "Y_MEAN"; VStr "BASELINE"]])
       else if String.eqb q sql_comparison_df then
         inr (demo_frame ["DECISION"] [[VStr "PROMOTE"]])
       else if String.eqb q sql_runs_df then
         inr (demo_frame ["PHASE"; "STATUS"]
                [[VStr "TRAIN"; VStr "SUCCESS"]; [VStr "LOAD"; VStr "SUCCESS"]])
       else if String.eqb q sql_log_df then
         inr (demo_frame ["NEW_ROWS"; "TRIGGER_TYPE"]
                [[VInt 120; VStr "STREAM"]])
       else inl (SnowparkSQLException "unknown statement") |}.

(** A warehouse in which every table is empty: no statement returns a row. *)
Definition empty_session : Session value :=
  {| sql_collect := fun _ => inr [];
     sql_to_pandas := fun _ => inr (demo_frame [] []) |}.

(** * Properties *)

(** ** Digits and separators *)

Lemma uint_chars (d : Decimal.uint) :
  Forall sign_or_digit (list_ascii_of_string (NilEmpty.string_of_uint d)).
Proof.
  induction d; cbn; constructor; try assumption; left; reflexivity.
Qed.

Lemma nilzero_chars (d : Decimal.uint) :
  Forall sign_or_digit (list_ascii_of_string (NilZero.string_of_uint d)).
Proof.
  destruct d; unfold NilZero.string_of_uint; try apply uint_chars.
  repeat constructor.
Qed.

Lemma str_of_int_chars (z : Z) :
  Forall sign_or_digit (list_ascii_of_string (str_of_int z)).
Proof.
  unfold str_of_int.
  destruct z as [| p | p]; cbn [Z.to_int NilZero.string_of_int].
  - apply nilzero_chars.
  - apply nilzero_chars.
  - cbn [list_ascii_of_string]. constructor; [now right |].
    apply nilzero_chars.
Qed.

Lemma sign_or_digit_not_comma (c : ascii) : sign_or_digit c -> not_comma c.
Proof. intros [H | ->] Hc; [subst c |]; discriminate. Qed.

Lemma str_of_int_not_comma (z : Z) :
  Forall not_comma (list_ascii_of_string (str_of_int z)).
Proof.
  eapply Forall_impl; [apply sign_or_digit_not_comma | apply str_of_int_chars].
Qed.

Lemma str_of_int_neg (p : positive) :
  str_of_int (Zneg p) = String "-" (str_of_int (Zpos p)).
Proof. reflexivity. Qed.

Lemma group_rev_erase (l : list ascii) :
  Forall not_comma l ->
  forall k,
    filter (fun c => negb (Ascii.eqb c ","%char)) (group_rev k l) = l.
Proof.
  induction 1 as [| c l Hc Hl IH]; intros k; [reflexivity |].
  assert (Hkeep : negb (Ascii.eqb c ","%char) = true).
  { apply negb_true_iff. now apply Ascii.eqb_neq. }
  destruct k as [| k]; cbn; rewrite Hkeep, IH; reflexivity.
Qed.

Lemma erase_group_thousands (s : string) :
  Forall not_comma (list_ascii_of_string s) ->
  erase_commas (group_thousands s) = s.
Proof.
  intros Hs. unfold erase_commas, group_thousands.
  rewrite list_ascii_of_string_of_list_ascii, filter_rev.
  rewrite group_rev_erase by (apply Forall_rev; exact Hs).
  now rewrite rev_involutive, string_of_list_ascii_of_string.
Qed.

Lemma list_ascii_of_string_app (a b : string) :
  list_ascii_of_string (a ++ b) =
    (list_ascii_of_string a ++ list_ascii_of_string b)%list.
Proof. induction a as [| c a IH]; cbn; [reflexivity | now rewrite IH]. Qed.

Lemma erase_comma_int (z : Z) : erase_commas (comma_int z) = str_of_int z.
Proof.
  unfold comma_int.
  destruct z as [| p | p]; cbn [Z.ltb Z.compare sign_prefix Z.abs].
  - reflexivity.
  - cbn [String.append]. apply erase_group_thousands, str_of_int_not_comma.
  - rewrite str_of_int_neg.
    pose proof (erase_group_thousands _ (str_of_int_not_comma (Zpos p)))
      as H.
    unfold erase_commas in *. cbn.
    rewrite <- H at 2. reflexivity.
Qed.

(** The separators stand exactly between groups of three digits, counted
    from the right: on the reversed digits, at every fourth place. *)
Lemma group_rev_places (l : list ascii) :
  Forall not_comma l ->
  forall k i c, (k <= 3)%nat ->
    nth_error (group_rev k l) i = Some c ->
    (c = ","%char <-> (i mod 4 = k)%nat).
Proof.
  induction 1 as [| d l Hd Hl IH]; intros k i c Hk Hnth.
  - destruct i; discriminate Hnth.
  - destruct k as [| k]; cbn [group_rev] in Hnth.
    + destruct i as [| [| i]]; cbn [nth_error] in Hnth.
      * injection Hnth as <-. split; reflexivity.
      * injection Hnth as <-. split; [intros; contradiction | discriminate].
      * specialize (IH 2%nat i c ltac:(lia) Hnth). rewrite IH.
        change (S (S i)) with (2 + i)%nat.
        pose proof (Nat.mod_upper_bound i 4 ltac:(lia)).
        pose proof (Nat.div_mod_eq i 4).
        pose proof (Nat.mod_upper_bound (2 + i) 4 ltac:(lia)).
        pose proof (Nat.div_mod_eq (2 + i) 4).
        lia.
    + destruct i as [| i]; cbn [nth_error] in Hnth.
      * injection Hnth as <-. split; [intros; contradiction | discriminate].
      * specialize (IH k i c ltac:(lia) Hnth). rewrite IH.
        change (S i) with (1 + i)%nat.
        pose proof (Nat.mod_upper_bound i 4 ltac:(lia)).
        pose proof (Nat.div_mod_eq i 4).
        pose proof (Nat.mod_upper_bound (1 + i) 4 ltac:(lia)).
        pose proof (Nat.div_mod_eq (1 + i) 4).
        lia.
Qed.

Lemma comma_int_places (n : Z) (i : nat) (c : ascii) :
  (0 <= n)%Z ->
  nth_error (rev (list_ascii_of_string (comma_int n))) i = Some c ->
  (c = ","%char <-> (i mod 4 = 3)%nat).
Proof.
  intros Hn. unfold comma_int.
  replace (n <? 0)%Z with false by (symmetry; apply Z.ltb_ge; exact Hn).
  cbn [sign_prefix String.append]. unfold group_thousands.
  rewrite list_ascii_of_string_of_list_ascii, rev_involutive.
  apply group_rev_places; [| lia].
  apply Forall_rev, str_of_int_not_comma.
Qed.

(** ** No decimals *)

Lemma has_char_app (c : ascii) (a b : string) :
  has_char c (a ++ b) = has_char c a || has_char c b.
Proof.
  induction a as [| x a IH]; cbn; [reflexivity |].
  now rewrite IH, orb_assoc.
Qed.

Lemma has_char_of_list (c : ascii) (l : list ascii) :
  has_char c (string_of_list_ascii l) = existsb (Ascii.eqb c) l.
Proof. induction l as [| x l IH]; cbn; [reflexivity | now rewrite IH]. Qed.

Lemma in_group_rev (x : ascii) (l : list ascii) :
  forall k, In x (group_rev k l) -> x = ","%char \/ In x l.
Proof.
  induction l as [| c l IH]; intros k Hin; [contradiction |].
  destruct k as [| k]; cbn in Hin.
  - destruct Hin as [<- | [<- | Hin]]; [now left | right; now left |].
    destruct (IH _ Hin); [now left | right; now right].
  - destruct Hin as [<- | Hin]; [right; now left |].
    destruct (IH _ Hin); [now left | right; now right].
Qed.

Lemma group_thousands_no_point (s : string) :
  Forall sign_or_digit (list_ascii_of_string s) ->
  has_char "."%char (group_thousands s) = false.
Proof.
  intros Hs. unfold group_thousands. rewrite has_char_of_list.
  apply not_true_is_false. intros Hex.
  apply existsb_exists in Hex. destruct Hex as [x [Hin Hx]].
  apply Ascii.eqb_eq in Hx. subst x.
  apply in_rev, in_group_rev in Hin. destruct Hin as [Hin | Hin].
  - discriminate Hin.
  - apply in_rev in Hin. rewrite Forall_forall in Hs.
    destruct (Hs _ Hin) as [H | H]; discriminate H.
Qed.

Lemma float_comma_0f_no_point (f : spec_float) :
  has_char "."%char (float_comma_0f f) = false.
Proof.
  destruct f as [s | s | | s m e]; cbn [float_comma_0f];
    try (destruct s; reflexivity); try reflexivity.
  rewrite has_char_app, group_thousands_no_point by apply str_of_int_chars.
  destruct s; reflexivity.
Qed.

Lemma format_comma_0f_no_point (v : value) (text : string) :
  format_comma_0f v = inr text -> has_char "."%char text = false.
Proof.
  destruct v as [| z | f | s]; cbn [format_comma_0f]; try discriminate.
  - destruct (float_of_int z) as [e | f]; [discriminate |].
    intros H. injection H as <-. apply float_comma_0f_no_point.
  - intros H. injection H as <-. apply float_comma_0f_no_point.
Qed.

Lemma comma_int_no_point (n : Z) : has_char "."%char (comma_int n) = false.
Proof.
  unfold comma_int.
  rewrite has_char_app, group_thousands_no_point by apply str_of_int_chars.
  destruct (n <? 0)%Z; reflexivity.
Qed.

(** ** Rounding *)

Lemma round_half_even_nearest (m : positive) (e : Z) :
  (e < 0)%Z ->
  let d := (2 ^ (- e))%Z in
  let n := round_half_even m e in
  (Z.abs (2 * (n * d - Zpos m)) <= d)%Z
  /\ ((Z.abs (2 * (n * d - Zpos m)) = d)%Z -> Z.even n = true)
  /\ (0 <= n)%Z.
Proof.
  intros He d n. subst n. unfold round_half_even.
  replace (0 <=? e)%Z with false by (symmetry; apply Z.leb_gt; exact He).
  fold d.
  assert (Hd : (0 < d)%Z) by (apply Z.pow_pos_nonneg; lia).
  pose proof (Z.div_mod (Zpos m) d ltac:(lia)) as Hdiv.
  pose proof (Z.mod_pos_bound (Zpos m) d Hd) as Hmod.
  assert (Hq : (0 <= Zpos m / d)%Z) by (apply Z.div_pos; lia).
  set (q := (Zpos m / d)%Z) in *. set (r := (Zpos m mod d)%Z) in *.
  destruct (Z.compare_spec (2 * r) d) as [Heq | Hlt | Hgt].
  - destruct (Z.even q) eqn:Hev.
    + repeat split; [nia | auto | lia].
    + repeat split; [nia | | lia].
      intros _. rewrite Z.even_add, Hev. reflexivity.
  - repeat split; [nia | | lia]. intros H. exfalso. nia.
  - repeat split; [nia | | lia]. intros H. exfalso. nia.
Qed.

Lemma digits2_pos_bounds (p : positive) :
  (2 ^ (Zpos (digits2_pos p) - 1) <= Zpos p < 2 ^ Zpos (digits2_pos p))%Z.
Proof.
  induction p as [p IH | p IH |]; cbn [digits2_pos].
  - rewrite Pos2Z.inj_succ.
    replace (Z.succ (Zpos (digits2_pos p)) - 1)%Z
      with (Z.succ (Zpos (digits2_pos p) - 1))%Z by lia.
    rewrite !Z.pow_succ_r by lia. lia.
  - rewrite Pos2Z.inj_succ.
    replace (Z.succ (Zpos (digits2_pos p)) - 1)%Z
      with (Z.succ (Zpos (digits2_pos p) - 1))%Z by lia.
    rewrite !Z.pow_succ_r by lia. lia.
  - cbn. lia.
Qed.

Lemma iter_xO_value (p k : positive) :
  Zpos (Pos.iter xO p k) = (Zpos p * 2 ^ Zpos k)%Z.
Proof.
  induction k as [| k IH] using Pos.peano_ind.
  - cbn. lia.
  - rewrite Pos.iter_succ, Pos2Z.inj_succ, Z.pow_succ_r by lia.
    rewrite Pos2Z.inj_xO, IH. lia.
Qed.

Lemma iter_xO_digits (p k : positive) :
  digits2_pos (Pos.iter xO p k) = (digits2_pos p + k)%positive.
Proof.
  induction k as [| k IH] using Pos.peano_ind.
  - cbn. lia.
  - rewrite Pos.iter_succ. cbn [digits2_pos]. rewrite IH. lia.
Qed.

Lemma float_of_small_int (p : positive) :
  (Zpos p < 2 ^ 53)%Z ->
  exists (m : positive) (e : Z),
    binary_round 53 1024 false p 0 = S754_finite false m e
    /\ binary_round 53 1024 true p 0 = S754_finite true m e
    /\ round_half_even m e = Zpos p.
Proof.
  intros Hp.
  pose proof (digits2_pos_bounds p) as [Hlow _].
  assert (Hd : (Zpos (digits2_pos p) <= 53)%Z).
  { destruct (Z.le_gt_cases (Zpos (digits2_pos p)) 53) as [H | H];
      [exact H | exfalso].
    assert (2 ^ 53 <= 2 ^ (Zpos (digits2_pos p) - 1))%Z
      by (apply Z.pow_le_mono_r; lia).
    lia. }
  set (d := digits2_pos p) in *.
  assert (Hround : forall (s : bool) (mz : positive) (ez : Z),
             digits2_pos mz = 53%positive -> (-52 <= ez <= 0)%Z ->
             binary_round_aux 53 1024 s (Zpos mz) ez loc_Exact
             = S754_finite s mz ez).
  { intros s mz ez Hmz Hez.
    unfold binary_round_aux, shr_fexp, fexp, emin. cbn [Zdigits2].
    rewrite Hmz.
    replace (Z.max (53 + ez - 53) (3 - 1024 - 53) - ez)%Z with 0%Z by lia.
    cbn [shr shr_record_of_loc shr_m loc_of_shr_record round_nearest_even
         Zdigits2].
    rewrite Hmz.
    replace (Z.max (53 + ez - 53) (3 - 1024 - 53) - ez)%Z with 0%Z by lia.
    cbn [shr shr_m].
    replace (ez <=? 1024 - 53)%Z with true
      by (symmetry; apply Z.leb_le; lia).
    reflexivity. }
  unfold binary_round, shl_align, fexp, emin. fold d.
  replace (Z.max (Zpos d + 0 - 53) (3 - 1024 - 53) - 0)%Z
    with (Zpos d - 53)%Z by lia.
  replace (Z.max (Zpos d + 0 - 53) (3 - 1024 - 53))%Z
    with (Zpos d - 53)%Z by lia.
  destruct (Zpos d - 53)%Z as [| k | k] eqn:Hk; try lia.
  - exists p, 0%Z.
    assert (Hd53 : digits2_pos p = 53%positive) by (fold d; lia).
    rewrite !Hround by (auto; lia).
    repeat split. unfold round_half_even. cbn. lia.
  - exists (Pos.iter xO p k), (Z.neg k).
    assert (Hdk : digits2_pos (Pos.iter xO p k) = 53%positive)
      by (rewrite iter_xO_digits; fold d; lia).
    rewrite !Hround by (auto; lia).
    repeat split. unfold round_half_even.
    replace (0 <=? Z.neg k)%Z with false by reflexivity.
    rewrite iter_xO_value. cbn [Z.opp].
    assert (Hpow : (0 < 2 ^ Zpos k)%Z) by (apply Z.pow_pos_nonneg; lia).
    rewrite Z.div_mul by lia. rewrite Z.mod_mul by lia.
    replace (2 * 0 ?= 2 ^ Zpos k)%Z with Lt
      by (symmetry; apply Z.compare_lt_iff; lia).
    reflexivity.
Qed.

Lemma format_comma_0f_small_int (n : Z) :
  (Z.abs n < 2 ^ 53)%Z -> format_comma_0f (VInt n) = inr (comma_int n).
Proof.
  intros Hn. unfold format_comma_0f, float_of_int, binary_normalize.
  destruct n as [| p | p].
  - reflexivity.
  - destruct (float_of_small_int p Hn) as (m & e & Hpos & _ & Hround).
    rewrite Hpos. cbn [float_comma_0f]. rewrite Hround. reflexivity.
  - destruct (float_of_small_int p Hn) as (m & e & _ & Hneg & Hround).
    rewrite Hneg. cbn [float_comma_0f]. rewrite Hround. reflexivity.
Qed.

(** ** The first character *)

Lemma nilzero_head (d : Decimal.uint) :
  exists c s, NilZero.string_of_uint d = String c s /\ is_digit c = true.
Proof.
  destruct d; cbn; eexists; eexists; split; reflexivity.
Qed.

Lemma group_rev_snoc (l : list ascii) (c : ascii) :
  forall k, exists pre, group_rev k (l ++ [c]) = pre ++ [c].
Proof.
  induction l as [| x l IH]; intros k.
  - destruct k; [exists [","%char] | exists []]; reflexivity.
  - destruct k as [| k]; cbn.
    + destruct (IH 2%nat) as [pre ->]. now exists (","%char :: x :: pre).
    + destruct (IH k) as [pre ->]. now exists (x :: pre).
Qed.

Lemma group_thousands_head (c : ascii) (s : string) :
  exists rest, group_thousands (String c s) = String c rest.
Proof.
  unfold group_thousands. cbn [list_ascii_of_string rev].
  destruct (group_rev_snoc (rev (list_ascii_of_string s)) c 3) as [pre ->].
  rewrite rev_app_distr. cbn. eauto.
Qed.

Lemma comma_int_nonneg (n : Z) :
  (0 <= n)%Z -> comma_int n = group_thousands (str_of_int n).
Proof.
  intros Hn. unfold comma_int.
  replace (n <? 0)%Z with false by (symmetry; apply Z.ltb_ge; exact Hn).
  now rewrite Z.abs_eq by exact Hn.
Qed.

Lemma comma_int_head (n : Z) :
  (0 <= n)%Z ->
  exists c rest, comma_int n = String c rest /\ is_digit c = true.
Proof.
  intros Hn. rewrite (comma_int_nonneg n Hn).
  assert (Hhead : exists c s, str_of_int n = String c s
                              /\ is_digit c = true).
  { unfold str_of_int. destruct n as [| p | p]; [| | lia];
      cbn [Z.to_int NilZero.string_of_int]; apply nilzero_head. }
  destruct Hhead as (c & s & -> & Hc).
  destruct (group_thousands_head c s) as [rest ->]. eauto.
Qed.

Lemma comma_int_negative (n : Z) :
  (n < 0)%Z -> comma_int n = ("-" ++ comma_int (- n))%string.
Proof.
  intros Hn. destruct n as [| p | p]; try lia. reflexivity.
Qed.

Lemma float_comma_0f_finite (s : bool) (m : positive) (e : Z) :
  exists k : Z,
    float_comma_0f (S754_finite s m e) = (sign_prefix s ++ comma_int k)%string
    /\ (0 <= k)%Z
    /\ ((0 <= e)%Z -> k = (Zpos m * 2 ^ e)%Z)
    /\ ((e < 0)%Z ->
        (Z.abs (2 * (k * 2 ^ (- e) - Zpos m)) <= 2 ^ (- e))%Z
        /\ ((Z.abs (2 * (k * 2 ^ (- e) - Zpos m)) = 2 ^ (- e))%Z ->
            Z.even k = true)).
Proof.
  exists (round_half_even m e).
  assert (Hpos : (0 <= round_half_even m e)%Z).
  { destruct (Z.ltb_spec e 0) as [He | He].
    - apply (round_half_even_nearest m e He).
    - unfold round_half_even.
      replace (0 <=? e)%Z with true by (symmetry; apply Z.leb_le; exact He).
      apply Z.mul_nonneg_nonneg; [lia | apply Z.pow_nonneg; lia]. }
  split; [| split; [exact Hpos | split]].
  - cbn [float_comma_0f]. now rewrite (comma_int_nonneg _ Hpos).
  - intros He. unfold round_half_even.
    now replace (0 <=? e)%Z with true by (symmetry; apply Z.leb_le; exact He).
  - intros He. destruct (round_half_even_nearest m e He) as (H1 & H2 & _).
    split; assumption.
Qed.

(** ** The panels *)

Section Properties.

Variable cell : Type.
Variable float_repr : spec_float -> string.

Implicit Types (session : Session cell) (r : Row) (df : DataFrame cell).

(** Runs a panel whose session answers are known from the context. *)
Ltac run_panel :=
  repeat match goal with
         | H : sql_collect _ _ = _ |- _ => rewrite H
         | H : sql_to_pandas _ _ = _ |- _ => rewrite H
         | H : row_getitem _ _ = _ |- _ => rewrite H
         | H : format_comma_0f _ = _ |- _ => rewrite H
         | H : format_comma _ _ = _ |- _ => rewrite H
         | |- _ => progress cbn [bind collect to_pandas eval draw ret truthy
                                  list_getitem nth_error app fst snd
                                  events outcome drawn statements]
         end.

(** ** The latest drift status *)

Lemma latest_drift_status_row session r rest v :
  sql_collect session sql_latest_drift = inr (r :: rest) ->
  row_getitem r "DRIFT_STATUS" = inr v ->
  latest_drift_status float_repr session =
    ([Sql sql_latest_drift;
      Draw (Column 2)
        (if eq_str v "NORMAL" || eq_str v "BASELINE"
         then Success ("✅ Drift Status: " ++ str float_repr v)
         else if eq_str v "WARNING"
              then Warning ("⚠️ Drift Status: " ++ str float_repr v)
              else Error ("🚨 Drift Status: " ++ str float_repr v))],
     inr tt).
Proof.
  intros Hrows Hstatus. unfold latest_drift_status. run_panel.
  destruct (eq_str v "NORMAL" || eq_str v "BASELINE"); [reflexivity|].
  destruct (eq_str v "WARNING"); reflexivity.
Qed.

(** C1: when the latest-drift statement returns a row whose status is the
    string [status], exactly one callout is drawn: a success callout for
    ["NORMAL"] and ["BASELINE"], a warning callout for ["WARNING"], and an
    error callout for ["CRITICAL"] and for every other string. *)
Theorem latest_drift_status_mapping session r rest (status : string) :
  sql_collect session sql_latest_drift = inr (r :: rest) ->
  row_getitem r "DRIFT_STATUS" = inr (VStr status) ->
  exists el : element cell,
    latest_drift_status float_repr session =
      ([Sql sql_latest_drift; Draw (Column 2) el], inr tt)
    /\ (status = "NORMAL" \/ status = "BASELINE" ->
        el = Success ("✅ Drift Status: " ++ status))
    /\ (status = "WARNING" ->
        el = Warning ("⚠️ Drift Status: " ++ status))
    /\ (status = "CRITICAL" ->
        el = Error ("🚨 Drift Status: " ++ status))
    /\ (status <> "NORMAL" -> status <> "BASELINE" -> status <> "WARNING" ->
        el = Error ("🚨 Drift Status: " ++ status))
    /\ callout_severity el =
         Some (if String.eqb status "NORMAL" || String.eqb status "BASELINE"
               then Positive
               else if String.eqb status "WARNING" then Cautionary
                    else Critical).
Proof.
  intros Hrows Hstatus.
  rewrite (latest_drift_status_row _ _ _ _ Hrows Hstatus).
  eexists; split; [reflexivity|]. cbn [eq_str str].
  destruct (String.eqb_spec status "NORMAL") as [-> | Hn].
  { cbn. repeat split; try reflexivity; intros; try discriminate;
      congruence. }
  destruct (String.eqb_spec status "BASELINE") as [-> | Hb].
  { cbn. repeat split; try reflexivity; intros; try discriminate;
      congruence. }
  destruct (String.eqb_spec status "WARNING") as [-> | Hw].
  { cbn. repeat split; try reflexivity; intros; try discriminate;
      try congruence.
    destruct H; discriminate. }
  cbn. repeat split; try reflexivity; intros; try congruence.
  destruct H; congruence.
Qed.

(** C7: a latest drift status of ["WARNING"] gives a warning callout, and
    its text contains the word [WARNING]. *)
Theorem warning_callout session r rest :
  sql_collect session sql_latest_drift = inr (r :: rest) ->
  row_getitem r "DRIFT_STATUS" = inr (VStr "WARNING") ->
  exists text : string,
    latest_drift_status float_repr session =
      ([Sql sql_latest_drift; Draw (Column 2) (Warning text)], inr tt)
    /\ text = "⚠️ Drift Status: WARNING"
    /\ contains "WARNING" text = true.
Proof.
  intros Hrows Hstatus.
  rewrite (latest_drift_status_row _ _ _ _ Hrows Hstatus).
  eexists; split; [reflexivity|]. split; reflexivity.
Qed.

(** ** The production model metrics *)

(** C5: when the production-model statement returns no row, the "Production
    Model" metric shows "None" and the "MAE" metric shows "N/A". *)
Theorem production_model_empty session :
  sql_collect session sql_prod_model = inr [] ->
  production_model session =
    ([Sql sql_prod_model;
      Draw (Column 1) (Metric "🏆 Production Model" (VStr "None"));
      Draw (Column 2) (Metric "📊 MAE" (VStr "N/A"))],
     inr tt).
Proof.
  intros Hrows. unfold production_model. run_panel. reflexivity.
Qed.

Lemma production_model_row session r rest version mae text :
  sql_collect session sql_prod_model = inr (r :: rest) ->
  row_getitem r "MODEL_VERSION" = inr version ->
  row_getitem r "MAE" = inr mae ->
  format_comma_0f mae = inr text ->
  production_model session =
    ([Sql sql_prod_model;
      Draw (Column 1) (Metric "🏆 Production Model" version);
      Draw (Column 2) (Metric "📊 MAE" (VStr text))],
     inr tt).
Proof.
  intros Hrows Hversion Hmae Htext. unfold production_model. run_panel.
  reflexivity.
Qed.

(** ** The record counts *)

Lemma data_counts_rows session r rest r' rest' raw_count feature_count t t' :
  sql_collect session sql_raw_count = inr (r :: rest) ->
  row_getitem r "CNT" = inr raw_count ->
  sql_collect session sql_feature_count = inr (r' :: rest') ->
  row_getitem r' "CNT" = inr feature_count ->
  format_comma float_repr raw_count = inr t ->
  format_comma float_repr feature_count = inr t' ->
  data_counts float_repr session =
    ([Sql sql_raw_count; Sql sql_feature_count;
      Draw (Column 3) (Metric "📁 Raw Records" (VStr t));
      Draw (Column 4) (Metric "🔧 Features" (VStr t'))],
     inr tt).
Proof.
  intros Hraw Hcnt Hfeat Hcnt' Ht Ht'. unfold data_counts. run_panel.
  reflexivity.
Qed.

(** C10: the two record-count metrics index row 0 of their [COUNT]
    results with no test for emptiness.  An empty result of either statement
    ends the pass with [IndexError] and neither metric is drawn; with a row
    of integer counts both metrics show the formatted numbers; and whatever
    the panel draws is a metric showing the formatted number found in row 0,
    never a placeholder.  The panel completes only if both statements
    returned at least one row. *)
Theorem data_counts_unconditional_index session :
  (sql_collect session sql_raw_count = inr [] ->
   data_counts float_repr session = ([Sql sql_raw_count], inl IndexError))
  /\ (forall r rest v,
        sql_collect session sql_raw_count = inr (r :: rest) ->
        row_getitem r "CNT" = inr v ->
        sql_collect session sql_feature_count = inr [] ->
        data_counts float_repr session =
          ([Sql sql_raw_count; Sql sql_feature_count], inl IndexError))
  /\ (forall r rest r' rest' n m,
        sql_collect session sql_raw_count = inr (r :: rest) ->
        row_getitem r "CNT" = inr (VInt n) ->
        sql_collect session sql_feature_count = inr (r' :: rest') ->
        row_getitem r' "CNT" = inr (VInt m) ->
        data_counts float_repr session =
          ([Sql sql_raw_count; Sql sql_feature_count;
            Draw (Column 3) (Metric "📁 Raw Records" (VStr (comma_int n)));
            Draw (Column 4) (Metric "🔧 Features" (VStr (comma_int m)))],
           inr tt))
  /\ (forall c el,
        In (c, el) (drawn (events (data_counts float_repr session))) ->
        exists q r rest v text,
          (q = sql_raw_count /\ c = Column 3
           /\ el = Metric "📁 Raw Records" (VStr text)
           \/ q = sql_feature_count /\ c = Column 4
              /\ el = Metric "🔧 Features" (VStr text))
          /\ sql_collect session q = inr (r :: rest)
          /\ row_getitem r "CNT" = inr v
          /\ is_number v = true
          /\ format_comma float_repr v = inr text)
  /\ (outcome (data_counts float_repr session) = inr tt ->
      exists r rest r' rest',
        sql_collect session sql_raw_count = inr (r :: rest)
        /\ sql_collect session sql_feature_count = inr (r' :: rest')).
Proof.
  split; [|split; [|split; [|split]]].
  - intros Hraw. unfold data_counts. run_panel. reflexivity.
  - intros r rest v Hraw Hcnt Hfeat. unfold data_counts. run_panel.
    reflexivity.
  - intros r rest r' rest' n m Hraw Hcnt Hfeat Hcnt'.
    apply (data_counts_rows _ _ _ _ _ _ _ _ _ Hraw Hcnt Hfeat Hcnt');
      reflexivity.
  - intros c el. unfold data_counts.
    destruct (sql_collect session sql_raw_count) as [e | [| r rest]] eqn:Hraw;
      run_panel; try contradiction.
    destruct (row_getitem r "CNT") as [e | v] eqn:Hcnt;
      run_panel; try contradiction.
    destruct (sql_collect session sql_feature_count)
      as [e | [| r' rest']] eqn:Hfeat; run_panel; try contradiction.
    destruct (row_getitem r' "CNT") as [e | v'] eqn:Hcnt';
      run_panel; try contradiction.
    destruct (format_comma float_repr v) as [e | t] eqn:Ht;
      run_panel; try contradiction.
    assert (Hnum : is_number v = true)
      by (destruct v; try discriminate Ht; reflexivity).
    destruct (format_comma float_repr v') as [e | t'] eqn:Ht'; run_panel.
    + intros [Hin | []]. inversion Hin; subst.
      exists sql_raw_count, r, rest, v, t. auto 10.
    + assert (Hnum' : is_number v' = true)
        by (destruct v'; try discriminate Ht'; reflexivity).
      intros [Hin | [Hin | []]]; inversion Hin; subst.
      * exists sql_raw_count, r, rest, v, t. auto 10.
      * exists sql_feature_count, r', rest', v', t'. auto 10.
  - unfold data_counts.
    destruct (sql_collect session sql_raw_count) as [e | [| r rest]] eqn:Hraw;
      run_panel; try discriminate.
    destruct (row_getitem r "CNT") as [e | v] eqn:Hcnt;
      run_panel; try discriminate.
    destruct (sql_collect session sql_feature_count)
      as [e | [| r' rest']] eqn:Hfeat; run_panel; try discriminate.
    intros _. exists r, rest, r', rest'. split; reflexivity.
Qed.

(** C6: the KPI numbers carry thousands separators and no decimals: an MAE
    of 1234567 (read as an [int] or as a [float]) is shown as "1,234,567",
    a raw-record count of 2500000 as "2,500,000" and a feature count of
    48000 as "48,000".  In general a count is printed as its decimal digits
    with a comma at every fourth place from the right and nothing else,
    never in front; an MAE is printed the same way after rounding to the
    nearest integer (ties to even), exactly for an [int] below 2^53, and no
    MAE text has a decimal point; whatever text the format yields is the
    text the metric shows. *)
Theorem kpi_number_formatting session :
  (forall r rest version mae,
      sql_collect session sql_prod_model = inr (r :: rest) ->
      row_getitem r "MODEL_VERSION" = inr version ->
      row_getitem r "MAE" = inr mae ->
      mae = VInt 1234567
      \/ (exists f, float_of_int 1234567 = inr f /\ mae = VFloat f) ->
      production_model session =
        ([Sql sql_prod_model;
          Draw (Column 1) (Metric "🏆 Production Model" version);
          Draw (Column 2) (Metric "📊 MAE" (VStr "1,234,567"))],
         inr tt))
  /\ (forall r rest r' rest',
        sql_collect session sql_raw_count = inr (r :: rest) ->
        row_getitem r "CNT" = inr (VInt 2500000) ->
        sql_collect session sql_feature_count = inr (r' :: rest') ->
        row_getitem r' "CNT" = inr (VInt 48000) ->
        data_counts float_repr session =
          ([Sql sql_raw_count; Sql sql_feature_count;
            Draw (Column 3) (Metric "📁 Raw Records" (VStr "2,500,000"));
            Draw (Column 4) (Metric "🔧 Features" (VStr "48,000"))],
           inr tt))
  /\ (forall n : Z,
        format_comma float_repr (VInt n) = inr (comma_int n)
        /\ erase_commas (comma_int n) = str_of_int n
        /\ has_char "."%char (comma_int n) = false)
  /\ (forall (n : Z) (i : nat) (c : ascii),
        (0 <= n)%Z ->
        nth_error (rev (list_ascii_of_string (comma_int n))) i = Some c ->
        (c = ","%char <-> (i mod 4 = 3)%nat))
  /\ (forall (v : value) (text : string),
        format_comma_0f v = inr text -> has_char "."%char text = false)
  /\ (forall n : Z,
        (0 <= n)%Z ->
        exists c rest, comma_int n = String c rest /\ is_digit c = true)
  /\ (forall n : Z,
        (n < 0)%Z -> comma_int n = ("-" ++ comma_int (- n))%string)
  /\ (forall n : Z,
        (Z.abs n < 2 ^ 53)%Z ->
        format_comma_0f (VInt n) = inr (comma_int n))
  /\ (forall n : Z,
        format_comma_0f (VInt n) =
          match float_of_int n with
          | inl e => inl e
          | inr f => format_comma_0f (VFloat f)
          end)
  /\ (forall (s : bool) (m : positive) (e : Z),
        exists k : Z,
          format_comma_0f (VFloat (S754_finite s m e)) =
            inr (sign_prefix s ++ comma_int k)%string
          /\ (0 <= k)%Z
          /\ ((0 <= e)%Z -> k = (Zpos m * 2 ^ e)%Z)
          /\ ((e < 0)%Z ->
              (Z.abs (2 * (k * 2 ^ (- e) - Zpos m)) <= 2 ^ (- e))%Z
              /\ ((Z.abs (2 * (k * 2 ^ (- e) - Zpos m)) = 2 ^ (- e))%Z ->
                  Z.even k = true)))
  /\ (forall s : bool,
        format_comma_0f (VFloat (S754_zero s)) = inr (sign_prefix s ++ "0")%string
        /\ format_comma_0f (VFloat (S754_infinity s)) =
             inr (sign_prefix s ++ "inf")%string)
  /\ format_comma_0f (VFloat S754_nan) = inr "nan"
  /\ format_comma_0f VNone = inl TypeError
  /\ (forall t : string, format_comma_0f (VStr t) = inl ValueError)
  /\ (forall r rest version mae text,
        sql_collect session sql_prod_model = inr (r :: rest) ->
        row_getitem r "MODEL_VERSION" = inr version ->
        row_getitem r "MAE" = inr mae ->
        format_comma_0f mae = inr text ->
        production_model session =
          ([Sql sql_prod_model;
            Draw (Column 1) (Metric "🏆 Production Model" version);
            Draw (Column 2) (Metric "📊 MAE" (VStr text))],
           inr tt))
  /\ (forall r rest r' rest' (n m : Z),
        sql_collect session sql_raw_count = inr (r :: rest) ->
        row_getitem r "CNT" = inr (VInt n) ->
        sql_collect session sql_feature_count = inr (r' :: rest') ->
        row_getitem r' "CNT" = inr (VInt m) ->
        data_counts float_repr session =
          ([Sql sql_raw_count; Sql sql_feature_count;
            Draw (Column 3) (Metric "📁 Raw Records" (VStr (comma_int n)));
            Draw (Column 4) (Metric "🔧 Features" (VStr (comma_int m)))],
           inr tt)).
Proof.
  split.
  { intros r rest version mae Hrows Hversion Hmae Hvalue.
    apply (production_model_row _ _ _ _ _ _ Hrows Hversion Hmae).
    destruct Hvalue as [-> | [f [Hf ->]]]; [reflexivity|].
    vm_compute in Hf. injection Hf as <-. reflexivity. }
  split.
  { intros r rest r' rest' Hraw Hcnt Hfeat Hcnt'.
    apply (data_counts_rows _ _ _ _ _ _ _ _ _ Hraw Hcnt Hfeat Hcnt');
      reflexivity. }
  split.
  { intros n; split; [reflexivity | split];
      [apply erase_comma_int | apply comma_int_no_point]. }
  split; [apply comma_int_places |].
  split; [apply format_comma_0f_no_point |].
  split; [apply comma_int_head |].
  split; [apply comma_int_negative |].
  split; [apply format_comma_0f_small_int |].
  split; [intros n; reflexivity |].
  split.
  { intros s m e. destruct (float_comma_0f_finite s m e) as (k & Hk & Hrest).
    exists k. split; [| exact Hrest]. cbn [format_comma_0f]. now rewrite Hk. }
  split; [intros s; split; reflexivity |].
  split; [reflexivity |].
  split; [reflexivity |].
  split; [intros t; reflexivity |].
  split.
  { intros r rest version mae text Hrows Hversion Hmae Htext.
    exact (production_model_row _ _ _ _ _ _ Hrows Hversion Hmae Htext). }
  intros r rest r' rest' n m Hraw Hcnt Hfeat Hcnt'.
  apply (data_counts_rows _ _ _ _ _ _ _ _ _ Hraw Hcnt Hfeat Hcnt');
    reflexivity.
Qed.

(** ** The tables *)

Lemma table_render_answer (p : table_panel) session df :
  sql_to_pandas session (table_statement p) = inr df ->
  table_render p session =
    ([Sql (table_statement p);
      Draw (table_container p)
        (if (0 <? len df)%nat then Dataframe df true
         else Info (table_placeholder p))],
     inr tt).
Proof.
  intros Hdf.
  destruct p; cbn [table_render table_statement table_container
                   table_placeholder] in *;
    [unfold model_history | unfold drift_metrics | unfold comparison_log
    | unfold pipeline_runs | unfold data_load_triggers];
    run_panel; destruct (0 <? len df)%nat; reflexivity.
Qed.

(** C4: a tabular panel whose statement returns N rows, 1 <= N <= 10, hands
    the fetched frame itself to [st.dataframe]: the same N rows in the same
    order, the same columns, nothing changed. *)
Theorem table_rows_preserved (p : table_panel) session df :
  sql_to_pandas session (table_statement p) = inr df ->
  (1 <= len df <= 10)%nat ->
  exists shown : DataFrame cell,
    table_render p session =
      ([Sql (table_statement p);
        Draw (table_container p) (Dataframe shown true)],
       inr tt)
    /\ df_rows shown = df_rows df
    /\ df_columns shown = df_columns df
    /\ length (df_rows shown) = len df.
Proof.
  intros Hdf [Hlow _]. exists df.
  rewrite (table_render_answer p session df Hdf).
  apply Nat.ltb_lt in Hlow. rewrite Hlow. auto.
Qed.

(** C3, as the script has it: with no row to show, each of the five tabular
    panels and the latest-drift panel draws its own informational notice and
    nothing else; the production-model panel draws no notice: it shows its
    two metrics with the texts "None" and "N/A". *)
Theorem empty_result_placeholders session :
  (forall (p : table_panel) df,
      sql_to_pandas session (table_statement p) = inr df ->
      len df = 0%nat ->
      table_render p session =
        ([Sql (table_statement p);
          Draw (table_container p) (Info (table_placeholder p))],
         inr tt))
  /\ (sql_collect session sql_latest_drift = inr [] ->
      latest_drift_status float_repr session =
        ([Sql sql_latest_drift; Draw (Column 2) (Info "No drift data")],
         inr tt))
  /\ (sql_collect session sql_prod_model = inr [] ->
      drawn (events (production_model session)) =
        [(Column 1, Metric "🏆 Production Model" (VStr "None"));
         (Column 2, Metric "📊 MAE" (VStr "N/A"))]).
Proof.
  split; [| split].
  - intros p df Hdf Hlen. rewrite (table_render_answer p session df Hdf).
    rewrite Hlen. reflexivity.
  - intros Hrows. unfold latest_drift_status. run_panel. reflexivity.
  - intros Hrows. unfold production_model. run_panel. reflexivity.
Qed.

(** ** Laws of the render monad *)

Lemma events_bind {A B : Type} (m : M cell A) (k : A -> M cell B) :
  events (bind m k) =
    events m ++ match outcome m with
                | inr a => events (k a)
                | inl _ => []
                end.
Proof.
  destruct m as [log [e | a]]; cbn.
  - now rewrite app_nil_r.
  - destruct (k a); reflexivity.
Qed.

Lemma outcome_bind {A B : Type} (m : M cell A) (k : A -> M cell B) :
  outcome (bind m k) =
    match outcome m with
    | inr a => outcome (k a)
    | inl e => inl e
    end.
Proof.
  destruct m as [log [e | a]]; cbn; [reflexivity|].
  destruct (k a); reflexivity.
Qed.

Lemma statements_app (l1 l2 : list (event cell)) :
  statements (l1 ++ l2) = statements l1 ++ statements l2.
Proof.
  induction l1 as [| [q | c el] l1 IH]; cbn; [reflexivity | |];
    now rewrite IH.
Qed.

Lemma in_statements (q : string) (log : list (event cell)) :
  In q (statements log) <-> In (Sql q) log.
Proof.
  induction log as [| [q' | c el] log IH]; cbn.
  - tauto.
  - split.
    + intros [-> | H]; [now left | right; now apply IH].
    + intros [H | H]; [left; congruence | right; now apply IH].
  - split.
    + intros H; right; now apply IH.
    + intros [H | H]; [discriminate | now apply IH].
Qed.

(** ** Which statements a pass sends *)

Lemma issues_bind {A B : Type} (l l1 l2 : list string)
      (m : M cell A) (k : A -> M cell B) :
  issues l1 m -> (forall a, issues l2 (k a)) -> l = l1 ++ l2 ->
  issues l (bind m k).
Proof.
  intros [[rest Hpre] Hall] Hk ->. unfold issues.
  rewrite events_bind, outcome_bind, statements_app.
  destruct (outcome m) as [e | a] eqn:Hm.
  - split; [| discriminate]. cbn. rewrite app_nil_r.
    exists (rest ++ l2). now rewrite Hpre, <- app_assoc.
  - destruct (Hk a) as [[rest' Hpre'] Hall'].
    rewrite (Hall a eq_refl). split.
    + exists rest'. now rewrite Hpre', <- app_assoc.
    + intros b Hb. now rewrite (Hall' b Hb).
Qed.

Lemma issues_draw (c : container) (el : element cell) :
  issues [] (draw c el).
Proof. split; [now exists [] | reflexivity]. Qed.

Lemma issues_eval {A : Type} (r : result A) : issues [] (@eval cell A r).
Proof. split; [now exists [] | reflexivity]. Qed.

Lemma issues_collect session (q : string) : issues [q] (collect session q).
Proof. split; [now exists [] | reflexivity]. Qed.

Lemma issues_to_pandas session (q : string) :
  issues [q] (to_pandas session q).
Proof. split; [now exists [] | reflexivity]. Qed.

(** Walks down a computation built from the primitives above. *)
Ltac issues_walk :=
  lazymatch goal with
  | |- issues _ (draw _ _) => apply issues_draw
  | |- issues _ (eval _) => apply issues_eval
  | |- issues _ (collect _ _) => apply issues_collect
  | |- issues _ (to_pandas _ _) => apply issues_to_pandas
  | |- issues _ (if ?b then _ else _) => destruct b; issues_walk
  | |- issues _ (bind _ _) =>
      eapply issues_bind; [issues_walk | intros; issues_walk | reflexivity]
  end.

Lemma issues_production_model session :
  issues [sql_prod_model] (production_model session).
Proof. unfold production_model. issues_walk. Qed.

Lemma issues_data_counts session :
  issues [sql_raw_count; sql_feature_count]
    (data_counts float_repr session).
Proof. unfold data_counts. issues_walk. Qed.

Lemma issues_latest_drift_status session :
  issues [sql_latest_drift] (latest_drift_status float_repr session).
Proof. unfold latest_drift_status. issues_walk. Qed.

Lemma issues_table (p : table_panel) session :
  issues [table_statement p] (table_render p session).
Proof.
  destruct p; cbn [table_render table_statement];
    [unfold model_history | unfold drift_metrics | unfold comparison_log
    | unfold pipeline_runs | unfold data_load_triggers];
    issues_walk.
Qed.

Lemma issues_dashboard session :
  issues all_statements (dashboard float_repr session).
Proof.
  unfold dashboard.
  repeat first
    [ apply issues_draw
    | eapply issues_bind;
      [ first [ apply issues_draw
              | apply issues_production_model
              | apply issues_data_counts
              | apply issues_latest_drift_status
              | apply (issues_table ModelHistory)
              | apply (issues_table DriftMetrics)
              | apply (issues_table ComparisonLog)
              | apply (issues_table PipelineRuns)
              | apply (issues_table DataLoadTriggers) ]
      | intros _
      | ] ].
  all: reflexivity.
Qed.

(** ** A failing statement ends the pass *)

Lemma stops_bind {A B : Type} session (m : M cell A) (k : A -> M cell B) :
  stops_at_failure session m ->
  (forall a, stops_at_failure session (k a)) ->
  stops_at_failure session (bind m k).
Proof.
  intros Hm Hk q e Hin Hfails.
  rewrite events_bind in Hin. rewrite events_bind, outcome_bind.
  destruct (outcome m) as [e' | a] eqn:Hout.
  - rewrite app_nil_r in *.
    destruct (Hm q e Hin Hfails) as [He Hlast].
    split; [congruence | exact Hlast].
  - apply in_app_or in Hin. destruct Hin as [Hin | Hin].
    + destruct (Hm q e Hin Hfails) as [He _]. congruence.
    + destruct (Hk a q e Hin Hfails) as [He [before Hlast]].
      split; [exact He |].
      exists (events m ++ before). now rewrite Hlast, app_assoc.
Qed.

Lemma stops_draw session (c : container) (el : element cell) :
  stops_at_failure session (draw c el).
Proof. intros q e [H | []] _. discriminate H. Qed.

Lemma stops_eval {A : Type} session (r : result A) :
  stops_at_failure session (@eval cell A r).
Proof. intros q e [] _. Qed.

Lemma not_listed (q : string) (l : list string) :
  existsb (String.eqb q) l = false -> ~ In q l.
Proof.
  intros Hnot Hin.
  assert (H : existsb (String.eqb q) l = true).
  { apply existsb_exists. exists q. split; [exact Hin |].
    apply String.eqb_refl. }
  congruence.
Qed.

Lemma stops_collect session (q : string) :
  existsb (String.eqb q) framed_statements = false ->
  stops_at_failure session (collect session q).
Proof.
  intros Hnot q' e [H | []] Hfails. injection H as <-.
  destruct Hfails as [[_ Hc] | [Hin _]].
  - split; [exact Hc | now exists []].
  - exfalso. exact (not_listed _ _ Hnot Hin).
Qed.

Lemma stops_to_pandas session (q : string) :
  existsb (String.eqb q) collected_statements = false ->
  stops_at_failure session (to_pandas session q).
Proof.
  intros Hnot q' e [H | []] Hfails. injection H as <-.
  destruct Hfails as [[Hin _] | [_ Hp]].
  - exfalso. exact (not_listed _ _ Hnot Hin).
  - split; [exact Hp | now exists []].
Qed.

Ltac stops_walk :=
  lazymatch goal with
  | |- stops_at_failure _ (draw _ _) => apply stops_draw
  | |- stops_at_failure _ (eval _) => apply stops_eval
  | |- stops_at_failure _ (collect _ _) =>
      apply stops_collect; vm_compute; reflexivity
  | |- stops_at_failure _ (to_pandas _ _) =>
      apply stops_to_pandas; vm_compute; reflexivity
  | |- stops_at_failure _ (if ?b then _ else _) => destruct b; stops_walk
  | |- stops_at_failure _ (bind _ _) =>
      apply stops_bind; [stops_walk | intros; stops_walk]
  end.

Lemma stops_dashboard session :
  stops_at_failure session (dashboard float_repr session).
Proof.
  unfold dashboard, production_model, data_counts, model_history,
    drift_metrics, latest_drift_status, comparison_log, pipeline_runs,
    data_load_triggers.
  stops_walk.
Qed.

(** ** Frames are drawn as fetched *)

Lemma frames_bind {A B : Type} session (m : M cell A) (k : A -> M cell B) :
  frames_as_fetched session (events m) ->
  (forall a, frames_as_fetched session (events (k a))) ->
  frames_as_fetched session (events (bind m k)).
Proof.
  intros Hm Hk c df b Hin. rewrite events_bind in *.
  apply in_app_or in Hin. destruct Hin as [Hin | Hin].
  - destruct (Hm c df b Hin) as [q [Hq Hdf]].
    exists q. split; [apply in_or_app; now left | exact Hdf].
  - destruct (outcome m) as [e | a]; [contradiction |].
    destruct (Hk a c df b Hin) as [q [Hq Hdf]].
    exists q. split; [apply in_or_app; now right | exact Hdf].
Qed.

Lemma frames_no_draw {A : Type} session (m : M cell A) :
  drawn (events m) = [] -> frames_as_fetched session (events m).
Proof.
  intros Hnone c df b Hin. exfalso.
  assert (Hd : In (c, Dataframe df b) (drawn (events m))).
  { clear Hnone. induction (events m) as [| [q | c' el] log IH]; cbn in *.
    - contradiction.
    - destruct Hin as [H | H]; [discriminate | now apply IH].
    - destruct Hin as [H | H]; [left; congruence | right; now apply IH]. }
  rewrite Hnone in Hd. contradiction.
Qed.

Lemma frames_other session (c : container) (el : element cell) :
  match el with Dataframe _ _ => False | _ => True end ->
  frames_as_fetched session (events (draw c el)).
Proof.
  intros Hel c' df b [H | []]. injection H as _ ->. contradiction.
Qed.

Lemma frames_table (p : table_panel) session :
  frames_as_fetched session (events (table_render p session)).
Proof.
  destruct (sql_to_pandas session (table_statement p)) as [e | df] eqn:Hdf.
  - apply frames_no_draw.
    destruct p; cbn [table_render table_statement] in *;
      [unfold model_history | unfold drift_metrics | unfold comparison_log
      | unfold pipeline_runs | unfold data_load_triggers];
      run_panel; reflexivity.
  - rewrite (table_render_answer p session df Hdf).
    intros c shown b [H | [H | []]]; [discriminate |].
    destruct (0 <? len df)%nat; [| discriminate].
    injection H as _ <- _. exists (table_statement p).
    split; [now left | exact Hdf].
Qed.

Ltac frames_walk :=
  lazymatch goal with
  | |- frames_as_fetched _ (events (draw _ _)) =>
      apply frames_other; exact I
  | |- frames_as_fetched _ (events (eval _)) =>
      apply frames_no_draw; reflexivity
  | |- frames_as_fetched _ (events (collect _ _)) =>
      apply frames_no_draw; reflexivity
  | |- frames_as_fetched _ (events (if ?b then _ else _)) =>
      destruct b; frames_walk
  | |- frames_as_fetched _ (events (bind _ _)) =>
      apply frames_bind; [frames_walk | intros; frames_walk]
  | |- frames_as_fetched _ (events (model_history _)) =>
      apply (frames_table ModelHistory)
  | |- frames_as_fetched _ (events (drift_metrics _)) =>
      apply (frames_table DriftMetrics)
  | |- frames_as_fetched _ (events (comparison_log _)) =>
      apply (frames_table ComparisonLog)
  | |- frames_as_fetched _ (events (pipeline_runs _)) =>
      apply (frames_table PipelineRuns)
  | |- frames_as_fetched _ (events (data_load_triggers _)) =>
      apply (frames_table DataLoadTriggers)
  end.

Lemma frames_dashboard session :
  frames_as_fetched session (events (dashboard float_repr session)).
Proof.
  unfold dashboard, production_model, data_counts, latest_drift_status.
  frames_walk.
Qed.

(** ** The statements of the script *)

(** No statement is sent twice in a pass, so a session answers a pass as a
    function of the statement text. *)
Lemma all_statements_distinct : NoDup all_statements.
Proof.
  replace all_statements with (nodup string_dec all_statements)
    by (vm_compute; reflexivity).
  apply NoDup_nodup.
Qed.

(** C2, as the script has it: a pass sends only the nine literal statements
    of [all_statements], in that order (all nine when it completes).  Each
    is one read-only, parameterless [SELECT]; together they read seven
    tables.  The six statements behind the tables and the latest drift
    status are ordered by a date or time column, descending, and capped at
    10 rows or 1 row; the production-model statement is capped at 1 row and
    has no [ORDER BY]; the two [COUNT] statements have neither. *)
Theorem nine_statements_seven_tables session :
  (exists rest,
      all_statements =
        statements (events (dashboard float_repr session)) ++ rest)
  /\ (outcome (dashboard float_repr session) = inr tt ->
      statements (events (dashboard float_repr session)) = all_statements)
  /\ length all_statements = 9%nat
  /\ forallb is_read_only_select all_statements = true
  /\ forallb is_parameterless all_statements = true
  /\ tables_read all_statements =
       [ "MLOPS_PROD_DB.MODELS.MODEL_REGISTRY";
         "MLOPS_PROD_DB.RAW.RAW_SALES";
         "MLOPS_PROD_DB.FEATURES.FEATURE_STORE";
         "MLOPS_PROD_DB.MONITORING.DRIFT_METRICS";
         "MLOPS_PROD_DB.MODELS.MODEL_COMPARISON_LOG";
         "MLOPS_PROD_DB.MONITORING.PIPELINE_RUNS";
         "MLOPS_PROD_DB.MONITORING.PIPELINE_RUN_LOG" ]
  /\ map (fun q => (order_by_desc q, limit_rows q)) all_statements =
       [ (None, Some 1%nat);
         (None, None);
         (None, None);
         (Some "TRAINING_DATE", Some 10%nat);
         (Some "CHECK_DATE", Some 10%nat);
         (Some "CHECK_DATE", Some 1%nat);
         (Some "COMPARISON_DATE", Some 10%nat);
         (Some "RUN_TIME", Some 10%nat);
         (Some "RUN_TIME", Some 10%nat) ].
Proof.
  destruct (issues_dashboard session) as [Hprefix Hall].
  split; [exact Hprefix |]. split; [apply Hall |].
  repeat split; vm_compute; reflexivity.
Qed.

(** ** What is drawn is what was fetched *)

Lemma all_events_bind {A B : Type} (P : event cell -> Prop)
      (m : M cell A) (k : A -> M cell B) :
  (forall ev, In ev (events m) -> P ev) ->
  (forall a ev, In ev (events (k a)) -> P ev) ->
  forall ev, In ev (events (bind m k)) -> P ev.
Proof.
  intros Hm Hk ev Hin. rewrite events_bind in Hin.
  apply in_app_or in Hin. destruct Hin as [Hin | Hin]; [now apply Hm |].
  destruct (outcome m) as [e | a]; [contradiction | now apply (Hk a)].
Qed.

(** Settles [shows_fetched] for the events of a panel that has been run on
    known answers. *)
Ltac shown :=
  let ev := fresh "ev" in
  let Hin := fresh "Hin" in
  intros ev Hin; cbn [In events fst] in Hin;
  repeat (destruct Hin as [<- | Hin]); try contradiction;
  cbn [shows_fetched]; try exact I; eauto 20.

Lemma shows_production_model session :
  forall ev, In ev (events (production_model session)) ->
             shows_fetched float_repr session ev.
Proof.
  unfold production_model.
  destruct (sql_collect session sql_prod_model) as [e | [| r rest]] eqn:Hq;
    run_panel; [shown | shown |].
  destruct (row_getitem r "MODEL_VERSION") as [e | version] eqn:Hv;
    run_panel; [shown |].
  destruct (row_getitem r "MAE") as [e | mae] eqn:Hm;
    run_panel; [shown |].
  destruct (format_comma_0f mae) as [e | t] eqn:Ht; run_panel; [shown |].
  intros ev Hin; cbn [In] in Hin.
  repeat (destruct Hin as [<- | Hin]); try contradiction;
    cbn [shows_fetched]; try exact I.
  - left. split; [reflexivity |]. right. eauto.
  - right; left. split; [reflexivity |]. right. eauto 10.
Qed.

Lemma shows_data_counts session :
  forall ev, In ev (events (data_counts float_repr session)) ->
             shows_fetched float_repr session ev.
Proof.
  unfold data_counts.
  destruct (sql_collect session sql_raw_count) as [e | [| r rest]] eqn:Hq;
    run_panel; [shown | shown |].
  destruct (row_getitem r "CNT") as [e | v] eqn:Hv; run_panel; [shown |].
  destruct (sql_collect session sql_feature_count)
    as [e | [| r' rest']] eqn:Hq'; run_panel; [shown | shown |].
  destruct (row_getitem r' "CNT") as [e | v'] eqn:Hv'; run_panel; [shown |].
  destruct (format_comma float_repr v) as [e | t] eqn:Ht;
    run_panel; [shown |].
  destruct (format_comma float_repr v') as [e | t'] eqn:Ht'; run_panel;
    intros ev Hin; cbn [In] in Hin;
    repeat (destruct Hin as [<- | Hin]); try contradiction;
    cbn [shows_fetched]; try exact I.
  - right; right; left. split; [reflexivity |]. eauto 10.
  - right; right; left. split; [reflexivity |]. eauto 10.
  - right; right; right. split; [reflexivity |]. eauto 10.
Qed.

Lemma shows_latest_drift_status session :
  forall ev, In ev (events (latest_drift_status float_repr session)) ->
             shows_fetched float_repr session ev.
Proof.
  destruct (sql_collect session sql_latest_drift)
    as [e | [| r rest]] eqn:Hq.
  - unfold latest_drift_status. run_panel. shown.
  - unfold latest_drift_status. run_panel. shown.
  - destruct (row_getitem r "DRIFT_STATUS") as [e | v] eqn:Hv.
    + unfold latest_drift_status. run_panel. shown.
    + rewrite (latest_drift_status_row _ _ _ _ Hq Hv).
      intros ev Hin; cbn [In events fst] in Hin.
      repeat (destruct Hin as [<- | Hin]); try contradiction;
        [exact I |].
      destruct (eq_str v "NORMAL" || eq_str v "BASELINE");
        [| destruct (eq_str v "WARNING")];
        cbn [shows_fetched]; exists r, rest, v; eexists;
        (split; [exact Hq |]); (split; [exact Hv | reflexivity]).
Qed.

Lemma shows_table (p : table_panel) session :
  forall ev, In ev (events (table_render p session)) ->
             shows_fetched float_repr session ev.
Proof.
  destruct (sql_to_pandas session (table_statement p)) as [e | df] eqn:Hq.
  - destruct p; cbn [table_render table_statement] in *;
      [unfold model_history | unfold drift_metrics | unfold comparison_log
      | unfold pipeline_runs | unfold data_load_triggers];
      run_panel; shown.
  - rewrite (table_render_answer p session df Hq).
    intros ev Hin; cbn [In events fst] in Hin.
    repeat (destruct Hin as [<- | Hin]); try contradiction; [exact I |].
    destruct (0 <? len df)%nat; cbn [shows_fetched]; [| exact I].
    exists (table_statement p). split; [| exact Hq].
    destruct p; cbn; auto 10.
Qed.

Lemma shows_dashboard session :
  forall ev, In ev (events (dashboard float_repr session)) ->
             shows_fetched float_repr session ev.
Proof.
  unfold dashboard.
  repeat lazymatch goal with
         | |- forall ev, In ev (events (bind _ _)) -> _ =>
             apply all_events_bind; [| intros _]
         | |- forall ev, In ev (events (draw _ _)) -> _ =>
             intros ? [<- | []]; exact I
         | |- forall ev, In ev (events (production_model _)) -> _ =>
             apply shows_production_model
         | |- forall ev, In ev (events (data_counts _ _)) -> _ =>
             apply shows_data_counts
         | |- forall ev, In ev (events (latest_drift_status _ _)) -> _ =>
             apply shows_latest_drift_status
         | |- forall ev, In ev (events (model_history _)) -> _ =>
             apply (shows_table ModelHistory)
         | |- forall ev, In ev (events (drift_metrics _)) -> _ =>
             apply (shows_table DriftMetrics)
         | |- forall ev, In ev (events (comparison_log _)) -> _ =>
             apply (shows_table ComparisonLog)
         | |- forall ev, In ev (events (pipeline_runs _)) -> _ =>
             apply (shows_table PipelineRuns)
         | |- forall ev, In ev (events (data_load_triggers _)) -> _ =>
             apply (shows_table DataLoadTriggers)
         end.
Qed.

(** C9: whatever the warehouse answers, every statement a pass executes is
    one plain [SELECT]: named columns, or the count of all rows, from one
    table, with at most an equality filter, an ordering and a cap; no
    function call, no sequence, no second statement, no writing key word
    (a [SELECT] of a sequence's next value, or one that calls a system
    function, is not plain).  And what the pass draws is what it fetched:
    every frame drawn is, unchanged, a frame the session returned for a
    statement of that pass, and every metric and status callout shows a
    field of row 0 of its statement, the version and the status as they are
    and the numbers as printed by their format. *)
Theorem warehouse_never_mutated session :
  Forall (fun q => is_read_only_select q = true)
    (statements (events (dashboard float_repr session)))
  /\ Forall (fun q => is_plain_select q = true)
       (statements (events (dashboard float_repr session)))
  /\ is_plain_select "SELECT SEQ.NEXTVAL FROM T" = false
  /\ is_plain_select "SELECT SYSTEM$ABORT_SESSION(1) FROM T" = false
  /\ is_plain_select "SELECT A INTO B FROM T" = false
  /\ is_plain_select "SELECT A FROM T; DROP TABLE T" = false
  /\ (forall c df b,
        In (Draw c (Dataframe df b))
          (events (dashboard float_repr session)) ->
        exists q,
          In q (statements (events (dashboard float_repr session)))
          /\ sql_to_pandas session q = inr df)
  /\ (forall ev,
        In ev (events (dashboard float_repr session)) ->
        shows_fetched float_repr session ev).
Proof.
  destruct (issues_dashboard session) as [[rest Hprefix] _].
  assert (Hall : forall P : string -> bool,
             forallb P all_statements = true ->
             Forall (fun q => P q = true)
               (statements (events (dashboard float_repr session)))).
  { intros P HP.
    assert (H : Forall (fun q => P q = true) all_statements)
      by (apply Forall_forall; now apply forallb_forall).
    rewrite Hprefix in H. apply Forall_app in H. apply H. }
  split; [apply Hall; vm_compute; reflexivity |].
  split; [apply Hall; vm_compute; reflexivity |].
  repeat (split; [vm_compute; reflexivity |]).
  split.
  - intros c df b Hin.
    destruct (frames_dashboard session c df b Hin) as [q [Hq Hdf]].
    exists q. split; [now apply in_statements | exact Hdf].
  - apply shows_dashboard.
Qed.

(** * Further properties of the panels *)

(** ** The drift callout, for any status value *)

Lemma contains_prefixed (needle p : string) :
  contains needle (p ++ needle) = true.
Proof.
  assert (Hrefl : forall s, starts_with s s = true).
  { induction s as [| c s IH]; cbn; [reflexivity |].
    now rewrite Ascii.eqb_refl, IH. }
  induction p as [| c p IH].
  - cbn [String.append]. destruct needle; cbn; [reflexivity |].
    now rewrite Ascii.eqb_refl, Hrefl.
  - cbn [String.append contains]. rewrite IH. apply orb_true_r.
Qed.

(** X1: whatever row 0 holds as [DRIFT_STATUS] (a string, a number or a
    NULL), exactly one callout is drawn, and it is a success callout only
    for the strings ["NORMAL"] and ["BASELINE"], a warning callout only for
    the string ["WARNING"], and an error callout otherwise; a NULL status is
    shown as the error callout "Drift Status: None". *)
Theorem drift_callout_any_value session r rest (v : value) :
  sql_collect session sql_latest_drift = inr (r :: rest) ->
  row_getitem r "DRIFT_STATUS" = inr v ->
  exists el : element cell,
    latest_drift_status float_repr session =
      ([Sql sql_latest_drift; Draw (Column 2) el], inr tt)
    /\ (callout_severity el = Some Positive <->
        v = VStr "NORMAL" \/ v = VStr "BASELINE")
    /\ (callout_severity el = Some Cautionary <-> v = VStr "WARNING")
    /\ (callout_severity el = Some Critical <->
        v <> VStr "NORMAL" /\ v <> VStr "BASELINE" /\ v <> VStr "WARNING")
    /\ (v = VNone -> el = Error "🚨 Drift Status: None").
Proof.
  intros Hrows Hstatus.
  rewrite (latest_drift_status_row _ _ _ _ Hrows Hstatus).
  eexists; split; [reflexivity |].
  assert (Heq : forall s, eq_str v s = true <-> v = VStr s).
  { intros s. destruct v as [| z | f | t]; cbn;
      try (split; [discriminate | discriminate]).
    rewrite String.eqb_eq. split; [now intros -> | now intros [= ->]]. }
  destruct (eq_str v "NORMAL") eqn:Hn.
  { apply Heq in Hn. subst v. cbn.
    repeat split; intros; try discriminate; try tauto;
      try (now left);
      repeat match goal with
             | H : _ /\ _ |- _ => destruct H
             | H : _ \/ _ |- _ => destruct H
             end; try discriminate; congruence. }
  destruct (eq_str v "BASELINE") eqn:Hb.
  { apply Heq in Hb. subst v. cbn.
    repeat split; intros; try discriminate; try tauto;
      try (now right);
      repeat match goal with
             | H : _ /\ _ |- _ => destruct H
             | H : _ \/ _ |- _ => destruct H
             end; try discriminate; congruence. }
  destruct (eq_str v "WARNING") eqn:Hw.
  { apply Heq in Hw. subst v. cbn.
    repeat split; intros; try discriminate; try reflexivity;
      repeat match goal with
             | H : _ /\ _ |- _ => destruct H
             | H : _ \/ _ |- _ => destruct H
             end; try discriminate; congruence. }
  assert (Hn' : v <> VStr "NORMAL")
    by (intros H; apply Heq in H; congruence).
  assert (Hb' : v <> VStr "BASELINE")
    by (intros H; apply Heq in H; congruence).
  assert (Hw' : v <> VStr "WARNING")
    by (intros H; apply Heq in H; congruence).
  cbn [orb callout_severity].
  repeat split; intros; try discriminate; try tauto;
    repeat match goal with
           | H : _ \/ _ |- _ => destruct H
           end; try congruence.
  subst v. reflexivity.
Qed.

(** X2: the callout always shows the status as [str] prints it: its text is
    the marker of its kind (one of the three the script has) followed by the
    status, so the status text can be found in it. *)
Theorem drift_callout_shows_status session r rest (v : value) :
  sql_collect session sql_latest_drift = inr (r :: rest) ->
  row_getitem r "DRIFT_STATUS" = inr v ->
  exists (el : element cell) (text : string),
    drawn (events (latest_drift_status float_repr session)) =
      [(Column 2, el)]
    /\ ((el = Success text
         /\ text = ("✅ Drift Status: " ++ str float_repr v)%string)
        \/ (el = Warning text
            /\ text = ("⚠️ Drift Status: " ++ str float_repr v)%string)
        \/ (el = Error text
            /\ text = ("🚨 Drift Status: " ++ str float_repr v)%string))
    /\ contains (str float_repr v) text = true.
Proof.
  intros Hrows Hstatus.
  rewrite (latest_drift_status_row _ _ _ _ Hrows Hstatus).
  cbn [events fst drawn].
  destruct (eq_str v "NORMAL" || eq_str v "BASELINE");
    [| destruct (eq_str v "WARNING")];
    eexists; eexists; (split; [reflexivity |]);
    (split; [| apply contains_prefixed]); auto 6.
Qed.

(** ** The production model with an MAE that cannot be printed *)

Lemma float_of_int_error (z : Z) (e : exn) :
  float_of_int z = inl e -> e = OverflowError.
Proof.
  unfold float_of_int.
  destruct (binary_normalize 53 1024 z 0 false); congruence.
Qed.

(** X3: when row 0 of the production model has an [MAE] that ['.0f'] does
    not accept, the "Production Model" metric is drawn, the "MAE" metric is
    not, and the pass ends there: with [TypeError] for a NULL, [ValueError]
    for a text, and [OverflowError] for a number (an [int] too large for a
    [float]; a [float] is always accepted). *)
Theorem production_model_bad_mae session r rest (version mae : value)
        (e : exn) :
  sql_collect session sql_prod_model = inr (r :: rest) ->
  row_getitem r "MODEL_VERSION" = inr version ->
  row_getitem r "MAE" = inr mae ->
  format_comma_0f mae = inl e ->
  production_model session =
    ([Sql sql_prod_model;
      Draw (Column 1) (Metric "🏆 Production Model" version)],
     inl e)
  /\ (mae = VNone -> e = TypeError)
  /\ (forall t, mae = VStr t -> e = ValueError)
  /\ (is_number mae = true -> e = OverflowError)
  /\ (forall f, mae <> VFloat f).
Proof.
  intros Hrows Hversion Hmae Hfmt. split.
  - unfold production_model. run_panel. reflexivity.
  - repeat split.
    + intros ->. cbn in Hfmt. congruence.
    + intros t ->. cbn in Hfmt. congruence.
    + destruct mae as [| z | f | t]; cbn in *; try discriminate.
      * intros _. destruct (float_of_int z) as [e' | f] eqn:Hz;
          [| discriminate].
        injection Hfmt as <-. now apply float_of_int_error in Hz.
    + intros f ->. discriminate Hfmt.
Qed.

(** ** The record counts: both or neither *)

Lemma format_comma_number (v : value) :
  is_number v = true <-> exists t, format_comma float_repr v = inr t.
Proof.
  destruct v; cbn; split; try discriminate; eauto;
    intros [t H]; discriminate H.
Qed.

(** X4: the two count metrics are drawn only after both statements were
    executed and indexed.  So if anything is drawn, both statements returned
    a row with a [CNT]; if the feature statement fails, the raw-records
    metric is not drawn either; and if the raw count prints but the feature
    count is a NULL or a text, the raw-records metric is drawn alone and the
    pass ends with [TypeError] or [ValueError]. *)
Theorem data_counts_both_or_neither session :
  (drawn (events (data_counts float_repr session)) <> [] ->
   exists r rest r' rest' v v' t,
     sql_collect session sql_raw_count = inr (r :: rest)
     /\ row_getitem r "CNT" = inr v
     /\ sql_collect session sql_feature_count = inr (r' :: rest')
     /\ row_getitem r' "CNT" = inr v'
     /\ format_comma float_repr v = inr t
     /\ hd_error (drawn (events (data_counts float_repr session))) =
          Some (Column 3, Metric "📁 Raw Records" (VStr t)))
  /\ (forall e,
        sql_collect session sql_feature_count = inl e ->
        drawn (events (data_counts float_repr session)) = [])
  /\ (forall r rest r' rest' v v' t,
        sql_collect session sql_raw_count = inr (r :: rest) ->
        row_getitem r "CNT" = inr v ->
        sql_collect session sql_feature_count = inr (r' :: rest') ->
        row_getitem r' "CNT" = inr v' ->
        format_comma float_repr v = inr t ->
        is_number v' = false ->
        data_counts float_repr session =
          ([Sql sql_raw_count; Sql sql_feature_count;
            Draw (Column 3) (Metric "📁 Raw Records" (VStr t))],
           inl (match v' with VNone => TypeError | _ => ValueError end))).
Proof.
  split; [| split].
  - unfold data_counts.
    destruct (sql_collect session sql_raw_count) as [e | [| r rest]] eqn:Hraw;
      run_panel; try congruence.
    destruct (row_getitem r "CNT") as [e | v] eqn:Hcnt;
      run_panel; try congruence.
    destruct (sql_collect session sql_feature_count)
      as [e | [| r' rest']] eqn:Hfeat; run_panel; try congruence.
    destruct (row_getitem r' "CNT") as [e | v'] eqn:Hcnt';
      run_panel; try congruence.
    destruct (format_comma float_repr v) as [e | t] eqn:Ht;
      run_panel; try congruence.
    intros _. exists r, rest, r', rest', v, v', t.
    repeat (split; [first [reflexivity | assumption] |]).
    destruct (format_comma float_repr v'); reflexivity.
  - intros e Hfeat. unfold data_counts.
    destruct (sql_collect session sql_raw_count)
      as [e' | [| r rest]] eqn:Hraw; run_panel; try reflexivity.
    destruct (row_getitem r "CNT") eqn:Hcnt; run_panel; reflexivity.
  - intros r rest r' rest' v v' t Hraw Hcnt Hfeat Hcnt' Ht Hnum.
    unfold data_counts. run_panel.
    destruct v'; try discriminate Hnum; reflexivity.
Qed.

(** ** A table panel draws one element, of any size *)

(** X5: a table panel whose statement is answered draws exactly one element:
    the fetched frame, whole, as soon as it has one row and however many it
    has (the panel itself applies no cap), and its notice otherwise.  A
    panel whose statement fails draws nothing and passes the exception
    on. *)
Theorem table_panel_one_element (p : table_panel) session :
  (forall df,
      sql_to_pandas session (table_statement p) = inr df ->
      exists el : element cell,
        table_render p session =
          ([Sql (table_statement p); Draw (table_container p) el], inr tt)
        /\ ((0 < len df)%nat -> el = Dataframe df true)
        /\ (len df = 0%nat -> el = Info (table_placeholder p))
        /\ is_table_slot el = true)
  /\ (forall e,
        sql_to_pandas session (table_statement p) = inl e ->
        table_render p session = ([Sql (table_statement p)], inl e)).
Proof.
  split.
  - intros df Hdf. rewrite (table_render_answer p session df Hdf).
    eexists; split; [reflexivity |].
    destruct (0 <? len df)%nat eqn:Hlen.
    + apply Nat.ltb_lt in Hlen. repeat split; try reflexivity. lia.
    + apply Nat.ltb_ge in Hlen. repeat split; try reflexivity. lia.
  - intros e Hdf.
    destruct p; cbn [table_render table_statement] in *;
      [unfold model_history | unfold drift_metrics | unfold comparison_log
      | unfold pipeline_runs | unfold data_load_triggers];
      run_panel; reflexivity.
Qed.

(** * Further properties of the whole pass *)

(** ** The pass is its panels, one after the other *)

Lemma seq_completes (m k : M cell unit) :
  outcome (bind m (fun _ => k)) = inr tt <->
  outcome m = inr tt /\ outcome k = inr tt.
Proof.
  rewrite outcome_bind. destruct (outcome m) as [e | []].
  - split; [discriminate | intros [H _]; discriminate H].
  - tauto.
Qed.

Lemma seq_events (m k : M cell unit) :
  outcome m = inr tt ->
  events (bind m (fun _ => k)) = events m ++ events k.
Proof. intros H. now rewrite events_bind, H. Qed.

Lemma dashboard_completes_panels session :
  outcome (dashboard float_repr session) = inr tt <->
  outcome (production_model session) = inr tt
  /\ outcome (data_counts float_repr session) = inr tt
  /\ outcome (model_history session) = inr tt
  /\ outcome (drift_metrics session) = inr tt
  /\ outcome (latest_drift_status float_repr session) = inr tt
  /\ outcome (comparison_log session) = inr tt
  /\ outcome (pipeline_runs session) = inr tt
  /\ outcome (data_load_triggers session) = inr tt.
Proof.
  unfold dashboard. repeat rewrite seq_completes.
  cbn [draw outcome snd]. tauto.
Qed.

Lemma dashboard_complete_log session :
  outcome (dashboard float_repr session) = inr tt ->
  events (dashboard float_repr session) = all_panels_log float_repr session.
Proof.
  unfold dashboard, all_panels_log. intros H.
  repeat lazymatch type of H with
         | outcome (bind ?m (fun _ => ?k)) = inr tt =>
             apply seq_completes in H;
             let Hm := fresh "Hm" in
             destruct H as [Hm H];
             rewrite (seq_events m k Hm)
         end.
  reflexivity.
Qed.

(** ** When the page renders completely *)

Lemma production_model_completes session :
  outcome (production_model session) = inr tt <->
  production_model_ok session = true.
Proof.
  unfold production_model, production_model_ok.
  destruct (sql_collect session sql_prod_model) as [e | [| r rest]] eqn:Hq;
    run_panel; try (split; [discriminate | discriminate]);
    try (split; reflexivity).
  destruct (row_getitem r "MODEL_VERSION") as [e | version] eqn:Hv;
    run_panel; [split; discriminate |].
  destruct (row_getitem r "MAE") as [e | mae] eqn:Hm;
    run_panel; [split; discriminate |].
  destruct (format_comma_0f mae) as [e | t] eqn:Ht;
    run_panel; cbn [is_ok]; [split; discriminate | split; reflexivity].
Qed.

Lemma data_counts_completes session :
  outcome (data_counts float_repr session) = inr tt <->
  count_ok session sql_raw_count && count_ok session sql_feature_count
  = true.
Proof.
  unfold data_counts, count_ok.
  destruct (sql_collect session sql_raw_count) as [e | [| r rest]] eqn:Hq;
    run_panel; try (split; discriminate).
  destruct (row_getitem r "CNT") as [e | v] eqn:Hv;
    run_panel; [split; discriminate |].
  destruct (sql_collect session sql_feature_count)
    as [e | [| r' rest']] eqn:Hq'; run_panel;
    try (rewrite andb_false_r; split; discriminate).
  destruct (row_getitem r' "CNT") as [e | v'] eqn:Hv';
    run_panel; [rewrite andb_false_r; split; discriminate |].
  destruct v as [| z | f | s], v' as [| z' | f' | s'];
    cbn; split; (discriminate || reflexivity).
Qed.

Lemma latest_drift_completes session :
  outcome (latest_drift_status float_repr session) = inr tt <->
  latest_drift_ok session = true.
Proof.
  unfold latest_drift_ok.
  destruct (sql_collect session sql_latest_drift)
    as [e | [| r rest]] eqn:Hq.
  - unfold latest_drift_status. run_panel. split; discriminate.
  - unfold latest_drift_status. run_panel. split; reflexivity.
  - destruct (row_getitem r "DRIFT_STATUS") as [e | v] eqn:Hv.
    + unfold latest_drift_status. run_panel. split; discriminate.
    + rewrite (latest_drift_status_row _ _ _ _ Hq Hv). split; reflexivity.
Qed.

Lemma table_completes (p : table_panel) session :
  outcome (table_render p session) = inr tt <-> table_ok session p = true.
Proof.
  unfold table_ok.
  destruct (sql_to_pandas session (table_statement p)) as [e | df] eqn:Hq.
  - destruct p; cbn [table_render table_statement] in *;
      [unfold model_history | unfold drift_metrics | unfold comparison_log
      | unfold pipeline_runs | unfold data_load_triggers];
      run_panel; split; discriminate.
  - rewrite (table_render_answer p session df Hq). split; reflexivity.
Qed.

(** X7: a pass completes exactly when the warehouse passes the check
    [renders_fully]: all nine statements are answered; the two counts come
    with a row 0 whose [CNT] is a number; a production-model row 0, if any,
    has both fields and an [MAE] that ['.0f'] accepts; a latest-drift row 0,
    if any, has a [DRIFT_STATUS]. *)
Theorem dashboard_completes_iff session :
  outcome (dashboard float_repr session) = inr tt <->
  renders_fully session = true.
Proof.
  unfold dashboard, renders_fully. repeat rewrite seq_completes.
  cbn [draw outcome snd].
  rewrite production_model_completes, data_counts_completes,
    latest_drift_completes.
  change (model_history session) with (table_render ModelHistory session).
  change (drift_metrics session) with (table_render DriftMetrics session).
  change (comparison_log session)
    with (table_render ComparisonLog session).
  change (pipeline_runs session) with (table_render PipelineRuns session).
  change (data_load_triggers session)
    with (table_render DataLoadTriggers session).
  rewrite (table_completes ModelHistory), (table_completes DriftMetrics),
    (table_completes ComparisonLog), (table_completes PipelineRuns),
    (table_completes DataLoadTriggers).
  repeat rewrite andb_true_iff. tauto.
Qed.

(** ** Nothing is asked twice *)

(** X8: no pass, completed or not, sends the same statement text twice: no
    statement is retried or run again. *)
Theorem no_statement_twice session :
  NoDup (statements (events (dashboard float_repr session))).
Proof.
  destruct (issues_dashboard session) as [[rest Hprefix] _].
  pose proof all_statements_distinct as Hnodup.
  rewrite Hprefix in Hnodup. now apply NoDup_app_remove_r in Hnodup.
Qed.

(** ** What a failure leaves on the page *)

Lemma sends_app (q : string) (l1 l2 : list (event cell)) :
  sends q (l1 ++ l2) = sends q l1 || sends q l2.
Proof.
  induction l1 as [| [q' | c el] l1 IH]; cbn; [reflexivity | |].
  - now rewrite IH, orb_assoc.
  - exact IH.
Qed.

Lemma cut_at_app (q : string) (l1 l2 : list (event cell)) :
  cut_at q (l1 ++ l2) =
    if sends q l1 then cut_at q l1 else l1 ++ cut_at q l2.
Proof.
  induction l1 as [| [q' | c el] l1 IH]; cbn; [reflexivity | |].
  - destruct (String.eqb q' q); cbn; [reflexivity |].
    rewrite IH. now destruct (sends q l1).
  - rewrite IH. now destruct (sends q l1).
Qed.

Lemma truncated_bind {A B : Type} (q : string) (e : exn)
      (m m' : M cell A) (k k' : A -> M cell B) :
  truncated_at q e m m' ->
  (forall a, truncated_at q e (k a) (k' a)) ->
  truncated_at q e (bind m k) (bind m' k').
Proof.
  unfold truncated_at. intros Hm Hk.
  rewrite events_bind, sends_app, cut_at_app.
  destruct (sends q (events m)) eqn:Hsend.
  - subst m'. reflexivity.
  - subst m'. destruct m as [log [e' | a]]; cbn in *.
    + reflexivity.
    + specialize (Hk a). destruct (sends q (events (k a))).
      * rewrite Hk. reflexivity.
      * rewrite Hk. reflexivity.
Qed.

Lemma truncated_same {A : Type} (q : string) (e : exn) (m : M cell A) :
  sends q (events m) = false -> truncated_at q e m m.
Proof. unfold truncated_at. now intros ->. Qed.

Lemma truncated_collect (q q0 : string) (e : exn) session :
  truncated_at q e (collect session q0)
    (collect (failing_at q e session) q0).
Proof.
  unfold truncated_at, collect. cbn.
  destruct (String.eqb q0 q); reflexivity.
Qed.

Lemma truncated_to_pandas (q q0 : string) (e : exn) session :
  truncated_at q e (to_pandas session q0)
    (to_pandas (failing_at q e session) q0).
Proof.
  unfold truncated_at, to_pandas. cbn.
  destruct (String.eqb q0 q); reflexivity.
Qed.

Ltac truncated_walk :=
  lazymatch goal with
  | |- truncated_at _ _ (draw _ _) _ => apply truncated_same; reflexivity
  | |- truncated_at _ _ (eval _) _ => apply truncated_same; reflexivity
  | |- truncated_at _ _ (collect _ _) _ => apply truncated_collect
  | |- truncated_at _ _ (to_pandas _ _) _ => apply truncated_to_pandas
  | |- truncated_at _ _ (if ?b then _ else _) _ =>
      destruct b; truncated_walk
  | |- truncated_at _ _ (bind _ _) _ =>
      apply truncated_bind; [truncated_walk | intros; truncated_walk]
  end.

(** X9: when one statement starts to fail and the warehouse is otherwise the
    same, the page keeps exactly what the healthy pass had drawn before
    sending that statement: the new pass is the old log cut right after the
    statement, ended by the exception.  A statement the healthy pass never
    reached changes nothing. *)
Theorem failure_truncates session (q : string) (e : exn) :
  (sends q (events (dashboard float_repr session)) = true ->
   dashboard float_repr (failing_at q e session) =
     (cut_at q (events (dashboard float_repr session)), inl e))
  /\ (sends q (events (dashboard float_repr session)) = false ->
      dashboard float_repr (failing_at q e session) =
        dashboard float_repr session).
Proof.
  assert (H : truncated_at q e (dashboard float_repr session)
                (dashboard float_repr (failing_at q e session))).
  { unfold dashboard, production_model, data_counts, model_history,
      drift_metrics, latest_drift_status, comparison_log, pipeline_runs,
      data_load_triggers.
    truncated_walk. }
  unfold truncated_at in H.
  split; intros Hs; rewrite Hs in H; exact H.
Qed.

(** ** Only row 0 is looked at *)

Lemma same_head_getitem (a b : result (list Row)) :
  same_head a b ->
  match a, b with
  | inr rows, inr rows' =>
      truthy rows = truthy rows' /\ list_getitem rows 0 = list_getitem rows' 0
  | inl e, inl e' => e = e'
  | _, _ => False
  end.
Proof.
  destruct a as [e | [| r rest]], b as [e' | [| r' rest']]; cbn;
    try tauto.
  intros ->. split; reflexivity.
Qed.

Lemma bind_ext {A B : Type} (m : M cell A) (k k' : A -> M cell B) :
  (forall a, k a = k' a) -> bind m k = bind m k'.
Proof.
  intros Hk. destruct m as [log [e | a]]; cbn; [reflexivity |].
  now rewrite Hk.
Qed.

Lemma bind_cong {A B : Type} (m m' : M cell A) (k k' : A -> M cell B) :
  m = m' -> (forall a, k a = k' a) -> bind m k = bind m' k'.
Proof. intros <-. apply bind_ext. Qed.

Lemma bind_collect_same_head (s1 s2 : Session cell) (q : string)
      (k1 k2 : list Row -> M cell unit) :
  same_head (sql_collect s1 q) (sql_collect s2 q) ->
  (forall rows rows',
      truthy rows = truthy rows' ->
      list_getitem rows 0 = list_getitem rows' 0 ->
      k1 rows = k2 rows') ->
  bind (collect s1 q) k1 = bind (collect s2 q) k2.
Proof.
  intros Hhead Hk. unfold collect, bind.
  pose proof (same_head_getitem _ _ Hhead) as H.
  destruct (sql_collect s1 q) as [e | rows],
           (sql_collect s2 q) as [e' | rows']; try contradiction.
  - now subst.
  - destruct H as [Ht Hg]. now rewrite (Hk rows rows' Ht Hg).
Qed.

(** X10: of what [.collect()] returns, the pass reads row 0 only.  Two
    warehouses whose [.collect()] answers agree on the exception, on being
    empty, and on row 0, and whose frames are the same, give the same pass:
    the same statements, the same page, the same outcome. *)
Theorem only_row_zero_matters (s1 s2 : Session cell) :
  (forall q, same_head (sql_collect s1 q) (sql_collect s2 q)) ->
  (forall q, sql_to_pandas s1 q = sql_to_pandas s2 q) ->
  dashboard float_repr s1 = dashboard float_repr s2.
Proof.
  intros Hrows Hframes.
  unfold dashboard, production_model, data_counts, model_history,
    drift_metrics, latest_drift_status, comparison_log, pipeline_runs,
    data_load_triggers, to_pandas.
  repeat rewrite Hframes.
  repeat lazymatch goal with
         | |- bind (collect s1 ?q) _ = bind (collect s2 ?q) _ =>
             apply (bind_collect_same_head s1 s2 q _ _ (Hrows q));
             let Ht := fresh "Ht" in
             let Hg := fresh "Hg" in
             intros ? ? Ht Hg; cbv beta;
             try rewrite Ht; repeat rewrite Hg
         | |- bind ?m _ = bind ?m _ => apply bind_ext; intros ?
         | |- bind _ _ = bind _ _ => apply bind_cong; [| intros ?]
         | |- (if ?b then _ else _) = (if ?b then _ else _) => destruct b
         | |- ?x = ?x => reflexivity
         end.
Qed.

(** ** The shape of a complete page *)

Lemma drawn_app (l1 l2 : list (event cell)) :
  drawn (l1 ++ l2) = drawn l1 ++ drawn l2.
Proof.
  induction l1 as [| [q | c el] l1 IH]; cbn; [reflexivity | exact IH |].
  now rewrite IH.
Qed.

Lemma production_model_shape session :
  outcome (production_model session) = inr tt ->
  exists version mae,
    drawn (events (production_model session)) =
      [(Column 1, Metric "🏆 Production Model" version);
       (Column 2, Metric "📊 MAE" (VStr mae))].
Proof.
  unfold production_model.
  destruct (sql_collect session sql_prod_model) as [e | [| r rest]] eqn:Hq;
    run_panel; try discriminate.
  - intros _. eexists; eexists; reflexivity.
  - destruct (row_getitem r "MODEL_VERSION") as [e | version] eqn:Hv;
      run_panel; [discriminate |].
    destruct (row_getitem r "MAE") as [e | mae] eqn:Hm;
      run_panel; [discriminate |].
    destruct (format_comma_0f mae) as [e | t] eqn:Ht;
      run_panel; [discriminate |].
    intros _. eexists; eexists; reflexivity.
Qed.

Lemma data_counts_shape session :
  outcome (data_counts float_repr session) = inr tt ->
  exists raw features,
    drawn (events (data_counts float_repr session)) =
      [(Column 3, Metric "📁 Raw Records" (VStr raw));
       (Column 4, Metric "🔧 Features" (VStr features))].
Proof.
  unfold data_counts.
  destruct (sql_collect session sql_raw_count) as [e | [| r rest]] eqn:Hq;
    run_panel; try discriminate.
  destruct (row_getitem r "CNT") as [e | v] eqn:Hv;
    run_panel; [discriminate |].
  destruct (sql_collect session sql_feature_count)
    as [e | [| r' rest']] eqn:Hq'; run_panel; try discriminate.
  destruct (row_getitem r' "CNT") as [e | v'] eqn:Hv';
    run_panel; [discriminate |].
  destruct (format_comma float_repr v) as [e | t] eqn:Ht;
    run_panel; [discriminate |].
  destruct (format_comma float_repr v') as [e | t'] eqn:Ht';
    run_panel; [discriminate |].
  intros _. eexists; eexists; reflexivity.
Qed.

Lemma table_shape (p : table_panel) session :
  outcome (table_render p session) = inr tt ->
  exists el,
    drawn (events (table_render p session)) = [(table_container p, el)]
    /\ is_table_slot el = true.
Proof.
  destruct (sql_to_pandas session (table_statement p)) as [e | df] eqn:Hq.
  - intros H. apply table_completes in H. unfold table_ok in H.
    rewrite Hq in H. discriminate H.
  - rewrite (table_render_answer p session df Hq). intros _.
    eexists; split; [reflexivity |].
    destruct (0 <? len df)%nat; reflexivity.
Qed.

Lemma latest_drift_shape session :
  outcome (latest_drift_status float_repr session) = inr tt ->
  exists el,
    drawn (events (latest_drift_status float_repr session)) =
      [(Column 2, el)]
    /\ callout_severity el <> None.
Proof.
  destruct (sql_collect session sql_latest_drift)
    as [e | [| r rest]] eqn:Hq.
  - unfold latest_drift_status. run_panel. discriminate.
  - unfold latest_drift_status. run_panel. intros _.
    eexists; split; [reflexivity | discriminate].
  - destruct (row_getitem r "DRIFT_STATUS") as [e | v] eqn:Hv.
    + unfold latest_drift_status. run_panel. discriminate.
    + rewrite (latest_drift_status_row _ _ _ _ Hq Hv). intros _.
      eexists; split; [reflexivity |].
      destruct (eq_str v "NORMAL" || eq_str v "BASELINE");
        [| destruct (eq_str v "WARNING")]; discriminate.
Qed.

(** X11: a complete page always has the same shape, whatever the data: the
    header, four metrics in the four KPI columns, and under each of the five
    headings one slot that holds either a frame or a notice, the drift
    heading having next to its slot one callout; twenty-seven elements in
    all, in this order. *)
Theorem complete_page_shape session :
  outcome (dashboard float_repr session) = inr tt ->
  exists (version : value) (mae raw features : string)
         (history drift callout comparison runs triggers : element cell),
    drawn (events (dashboard float_repr session)) =
      [ (Page, SetPageConfig "MLOps Dashboard" "wide");
        (Page, Title "🚀 MLOps Production Dashboard");
        (Page, Markdown "---");
        (Page, Columns 4);
        (Column 1, Metric "🏆 Production Model" version);
        (Column 2, Metric "📊 MAE" (VStr mae));
        (Column 3, Metric "📁 Raw Records" (VStr raw));
        (Column 4, Metric "🔧 Features" (VStr features));
        (Page, Markdown "---");
        (Page, Subheader "📈 Model Training History");
        (Page, history);
        (Page, Markdown "---");
        (Page, Subheader "🔍 Data Drift Monitoring");
        (Page, Columns 2);
        (Column 1, drift);
        (Column 2, callout);
        (Page, Markdown "---");
        (Page, Subheader "⚖️ Model Comparison History");
        (Page, comparison);
        (Page, Markdown "---");
        (Page, Subheader "🔄 Pipeline Run History");
        (Page, runs);
        (Page, Markdown "---");
        (Page, Subheader "📥 Data Load Triggers");
        (Page, triggers);
        (Page, Markdown "---");
        (Page,
         Caption
           "MLOps Production Pipeline Dashboard | Auto-refreshes with new data")
      ]
    /\ is_table_slot history = true
    /\ is_table_slot drift = true
    /\ callout_severity callout <> None
    /\ is_table_slot comparison = true
    /\ is_table_slot runs = true
    /\ is_table_slot triggers = true.
Proof.
  intros Hdone. rewrite (dashboard_complete_log session Hdone).
  apply dashboard_completes_panels in Hdone.
  destruct Hdone as (Hprod & Hcounts & Hhist & Hdrift & Hlatest & Hcmp
                     & Hruns & Hlog).
  destruct (production_model_shape session Hprod) as (version & mae & Ep).
  destruct (data_counts_shape session Hcounts) as (raw & features & Ec).
  destruct (table_shape ModelHistory session Hhist) as (history & Eh & Sh).
  destruct (table_shape DriftMetrics session Hdrift) as (drift & Ed & Sd).
  destruct (latest_drift_shape session Hlatest) as (callout & El & Sl).
  destruct (table_shape ComparisonLog session Hcmp)
    as (comparison & Em & Sm).
  destruct (table_shape PipelineRuns session Hruns) as (runs & Er & Sr).
  destruct (table_shape DataLoadTriggers session Hlog)
    as (triggers & Et & St).
  exists version, mae, raw, features, history, drift, callout, comparison,
    runs, triggers.
  split; [| auto 10].
  unfold all_panels_log. repeat rewrite drawn_app.
  cbn [table_render table_container] in *.
  rewrite Ep, Ec, Eh, Ed, El, Em, Er, Et. reflexivity.
Qed.

(** ** A floating-point MAE is shown to the nearest integer *)

(** X12: a production model whose [MAE] is a finite non-zero [float]
    [(-1)^s * m * 2^e] is shown with the sign and the grouped digits of the
    integer nearest to [m * 2^e]; a value half-way between two integers goes
    to the even one; a value that is an integer is shown exactly. *)
Theorem mae_float_to_nearest_integer session r rest (version : value)
        (s : bool) (m : positive) (e : Z) :
  sql_collect session sql_prod_model = inr (r :: rest) ->
  row_getitem r "MODEL_VERSION" = inr version ->
  row_getitem r "MAE" = inr (VFloat (S754_finite s m e)) ->
  exists n : Z,
    production_model session =
      ([Sql sql_prod_model;
        Draw (Column 1) (Metric "🏆 Production Model" version);
        Draw (Column 2)
          (Metric "📊 MAE"
             (VStr (sign_prefix s ++ group_thousands (str_of_int n))))],
       inr tt)
    /\ (0 <= n)%Z
    /\ ((0 <= e)%Z -> n = (Zpos m * 2 ^ e)%Z)
    /\ ((e < 0)%Z ->
        (Z.abs (2 * (n * 2 ^ (- e) - Zpos m)) <= 2 ^ (- e))%Z
        /\ ((Z.abs (2 * (n * 2 ^ (- e) - Zpos m)) = 2 ^ (- e))%Z ->
            Z.even n = true)).
Proof.
  intros Hrows Hversion Hmae. exists (round_half_even m e).
  split; [| split; [| split]].
  - apply (production_model_row _ _ _ _ _ _ Hrows Hversion Hmae).
    reflexivity.
  - destruct (Z.ltb_spec e 0) as [He | He].
    + apply (round_half_even_nearest m e He).
    + unfold round_half_even.
      replace (0 <=? e)%Z with true by (symmetry; apply Z.leb_le; exact He).
      apply Z.mul_nonneg_nonneg; [lia | apply Z.pow_nonneg; lia].
  - intros He. unfold round_half_even.
    now replace (0 <=? e)%Z with true by (symmetry; apply Z.leb_le; exact He).
  - intros He. destruct (round_half_even_nearest m e He) as (H1 & H2 & _).
    split; assumption.
Qed.

(** ** An integer MAE is shown exactly, up to 2^53 *)

(** X13: a production model whose [MAE] is an [int] of magnitude below 2^53
    is shown with exactly its own digits, grouped by thousands: going
    through [float] loses nothing there.  The bound is sharp: 2^53 + 1 is
    shown as 2^53. *)
Theorem mae_int_exact session r rest (version : value) (n : Z) :
  sql_collect session sql_prod_model = inr (r :: rest) ->
  row_getitem r "MODEL_VERSION" = inr version ->
  row_getitem r "MAE" = inr (VInt n) ->
  (Z.abs n < 2 ^ 53)%Z ->
  production_model session =
    ([Sql sql_prod_model;
      Draw (Column 1) (Metric "🏆 Production Model" version);
      Draw (Column 2) (Metric "📊 MAE" (VStr (comma_int n)))],
     inr tt)
  /\ erase_commas (comma_int n) = str_of_int n
  /\ format_comma_0f (VInt (2 ^ 53 + 1)) = inr (comma_int (2 ^ 53)).
Proof.
  intros Hrows Hversion Hmae Hn. split; [| split].
  - apply (production_model_row _ _ _ _ _ _ Hrows Hversion Hmae).
    now apply format_comma_0f_small_int.
  - apply erase_comma_int.
  - vm_compute. reflexivity.
Qed.

End Properties.

(** ** Failures *)

(** C8: nothing catches a failing statement.  If the call by which the
    script executes a statement raises, in a pass that sends the statement,
    the pass ends with that very exception, and sending the statement is the
    last event of the pass: nothing of that panel or of a later one is
    drawn.  Only the call the script makes counts: [.collect()] for the four
    collected statements, [.to_pandas()] for the five frames.  This can
    happen at each of the nine statements: on a warehouse where that one
    call fails and nothing else does, the pass reaches the statement. *)
Theorem query_failure_propagates :
  (forall (cell : Type) (float_repr : spec_float -> string)
          (session : Session cell) (q : string) (e : exn),
      In q (statements (events (dashboard float_repr session))) ->
      fails session q e ->
      outcome (dashboard float_repr session) = inl e
      /\ exists before,
          events (dashboard float_repr session) = before ++ [Sql q])
  /\ (forall (q : string) (e : exn),
        In q collected_statements ->
        sql_collect (collect_failing_at q e demo_session) q = inl e
        /\ fails (collect_failing_at q e demo_session) q e
        /\ In q (statements
                   (events (dashboard repr_unused
                              (collect_failing_at q e demo_session)))))
  /\ (forall (q : string) (e : exn),
        In q framed_statements ->
        sql_to_pandas (to_pandas_failing_at q e demo_session) q = inl e
        /\ fails (to_pandas_failing_at q e demo_session) q e
        /\ In q (statements
                   (events (dashboard repr_unused
                              (to_pandas_failing_at q e demo_session)))))
  /\ (forall q : string,
        In q all_statements <->
        In q collected_statements \/ In q framed_statements).
Proof.
  split; [| split; [| split]].
  - intros cell float_repr session q e Hin Hfails.
    apply (stops_dashboard cell float_repr session q e); [| exact Hfails].
    now apply in_statements.
  - intros q e Hin.
    assert (Hraise : sql_collect (collect_failing_at q e demo_session) q
                     = inl e)
      by (cbn; now rewrite String.eqb_refl).
    split; [exact Hraise |]. split; [left; split; assumption |].
    cbn in Hin.
    repeat (destruct Hin as [<- | Hin];
            [vm_compute; repeat (first [left; reflexivity | right]) |]).
    contradiction.
  - intros q e Hin.
    assert (Hraise : sql_to_pandas (to_pandas_failing_at q e demo_session) q
                     = inl e)
      by (cbn; now rewrite String.eqb_refl).
    split; [exact Hraise |]. split; [right; split; assumption |].
    cbn in Hin.
    repeat (destruct Hin as [<- | Hin];
            [vm_compute; repeat (first [left; reflexivity | right]) |]).
    contradiction.
  - intros q. unfold all_statements, collected_statements, framed_statements.
    cbn [In]. tauto.
Qed.

(** * The properties at work on the sample warehouses *)

Lemma latest_drift_status_mapping_witness :
  exists el : element value,
    latest_drift_status repr_unused demo_session =
      ([Sql sql_latest_drift; Draw (Column 2) el], inr tt)
    /\ callout_severity el = Some Cautionary.
Proof.
  destruct (latest_drift_status_mapping value repr_unused demo_session
              [("DRIFT_STATUS", VStr "WARNING")] [] "WARNING"
              eq_refl eq_refl)
    as [el [Hrun [_ [_ [_ [_ Hsev]]]]]].
  exists el. split; [exact Hrun | exact Hsev].
Defined.

Lemma warning_callout_witness :
  exists text : string,
    latest_drift_status repr_unused demo_session =
      ([Sql sql_latest_drift; Draw (Column 2) (Warning text)], inr tt)
    /\ text = "⚠️ Drift Status: WARNING"
    /\ contains "WARNING" text = true.
Proof.
  apply (warning_callout value repr_unused demo_session
           [("DRIFT_STATUS", VStr "WARNING")] []); reflexivity.
Defined.

Lemma production_model_empty_witness :
  production_model empty_session =
    ([Sql sql_prod_model;
      Draw (Column 1) (Metric "🏆 Production Model" (VStr "None"));
      Draw (Column 2) (Metric "📊 MAE" (VStr "N/A"))],
     inr tt).
Proof.
  apply (production_model_empty value empty_session). reflexivity.
Defined.

Lemma data_counts_unconditional_index_witness :
  data_counts repr_unused empty_session = ([Sql sql_raw_count], inl IndexError)
  /\ data_counts repr_unused demo_session =
       ([Sql sql_raw_count; Sql sql_feature_count;
         Draw (Column 3)
           (Metric "📁 Raw Records" (VStr (comma_int 2500000)));
         Draw (Column 4) (Metric "🔧 Features" (VStr (comma_int 48000)))],
        inr tt).
Proof.
  split.
  - apply (proj1 (data_counts_unconditional_index value repr_unused
                    empty_session)).
    reflexivity.
  - apply (proj1 (proj2 (proj2 (data_counts_unconditional_index value
                                  repr_unused demo_session)))
             [("CNT", VInt 2500000)] [] [("CNT", VInt 48000)] []);
      reflexivity.
Defined.

Lemma kpi_number_formatting_witness :
  production_model demo_session =
    ([Sql sql_prod_model;
      Draw (Column 1) (Metric "🏆 Production Model" (VStr "v7"));
      Draw (Column 2) (Metric "📊 MAE" (VStr "1,234,567"))],
     inr tt)
  /\ data_counts repr_unused demo_session =
       ([Sql sql_raw_count; Sql sql_feature_count;
         Draw (Column 3) (Metric "📁 Raw Records" (VStr "2,500,000"));
         Draw (Column 4) (Metric "🔧 Features" (VStr "48,000"))],
        inr tt).
Proof.
  destruct (kpi_number_formatting value repr_unused demo_session)
    as [Hmae [Hcounts _]].
  split.
  - apply (Hmae [("MODEL_VERSION", VStr "v7"); ("MAE", VInt 1234567);
                 ("TRAINING_DATE", VStr "2024-05-01")] []
             (VStr "v7") (VInt 1234567)); try reflexivity.
    left; reflexivity.
  - apply (Hcounts [("CNT", VInt 2500000)] [] [("CNT", VInt 48000)] []);
      reflexivity.
Defined.

Lemma table_rows_preserved_witness :
  exists shown : DataFrame value,
    table_render DriftMetrics demo_session =
      ([Sql sql_drift_df; Draw (Column 1) (Dataframe shown true)], inr tt)
    /\ df_rows shown =
         [[VStr "Y_MEAN"; VStr "WARNING"];
          [VStr "Y_STD"; VStr "NORMAL"];
          [VStr "Y_MEAN"; VStr "BASELINE"]]
    /\ df_columns shown = ["METRIC_NAME"; "DRIFT_STATUS"]
    /\ length (df_rows shown) = 3%nat.
Proof.
  apply (table_rows_preserved value DriftMetrics demo_session
           (demo_frame ["METRIC_NAME"; "DRIFT_STATUS"]
              [[VStr "Y_MEAN"; VStr "WARNING"];
               [VStr "Y_STD"; VStr "NORMAL"];
               [VStr "Y_MEAN"; VStr "BASELINE"]])).
  - reflexivity.
  - cbn. lia.
Defined.

Lemma empty_result_placeholders_witness :
  table_render PipelineRuns empty_session =
    ([Sql sql_runs_df; Draw Page (Info "No pipeline runs yet")], inr tt)
  /\ latest_drift_status repr_unused empty_session =
       ([Sql sql_latest_drift; Draw (Column 2) (Info "No drift data")],
        inr tt).
Proof.
  destruct (empty_result_placeholders value repr_unused empty_session)
    as [Htables [Hlatest _]].
  split.
  - apply (Htables PipelineRuns (demo_frame [] [])); reflexivity.
  - apply Hlatest. reflexivity.
Defined.

Lemma query_failure_propagates_witness :
  sql_collect
    (to_pandas_failing_at sql_drift_df (SnowparkSQLException "timeout")
       demo_session) sql_drift_df
  = inl (SnowparkSQLException "unknown statement")
  /\ outcome (dashboard repr_unused
                (to_pandas_failing_at sql_drift_df
                   (SnowparkSQLException "timeout") demo_session))
     = inl (SnowparkSQLException "timeout")
  /\ exists before,
      events (dashboard repr_unused
                (to_pandas_failing_at sql_drift_df
                   (SnowparkSQLException "timeout") demo_session))
      = before ++ [Sql sql_drift_df].
Proof.
  split; [reflexivity |].
  apply (proj1 query_failure_propagates value repr_unused
           (to_pandas_failing_at sql_drift_df
              (SnowparkSQLException "timeout") demo_session)
           sql_drift_df (SnowparkSQLException "timeout")).
  - vm_compute. repeat (first [left; reflexivity | right]).
  - right. split; [| reflexivity].
    vm_compute. repeat (first [left; reflexivity | right]).
Defined.

Lemma nine_statements_seven_tables_witness :
  statements (events (dashboard repr_unused demo_session)) = all_statements.
Proof.
  apply (proj1 (proj2 (nine_statements_seven_tables value repr_unused
                         demo_session))).
  reflexivity.
Defined.

(** * Where the script departs from the specification *)

(** C2 fails as stated: a completed pass has sent nine statements, not
    seven, and three of them (the production model and the two counts) are
    not ordered at all; the two counts are not capped either. *)
Lemma seven_ordered_statements_refuted :
  outcome (dashboard repr_unused demo_session) = inr tt
  /\ length (statements (events (dashboard repr_unused demo_session)))
     = 9%nat
  /\ map ordered_desc_and_capped
       (statements (events (dashboard repr_unused demo_session)))
     = [false; false; false; true; true; true; true; true; true]
  /\ ~ (length (statements (events (dashboard repr_unused demo_session)))
        = 7%nat
        /\ forallb ordered_desc_and_capped
             (statements (events (dashboard repr_unused demo_session)))
           = true).
Proof.
  split; [reflexivity |]. split; [reflexivity |]. split; [reflexivity |].
  intros [Hlen _]. vm_compute in Hlen. discriminate Hlen.
Qed.

(** C3 fails as stated at the production-model panel: with no row, it draws
    two metric widgets and no informational notice. *)
Lemma production_model_empty_not_placeholder :
  sql_collect empty_session sql_prod_model = inr []
  /\ ~ placeholder_only (events (production_model empty_session))
  /\ forallb (fun ce => is_widget_for_rows (snd ce))
       (drawn (events (production_model empty_session))) = true.
Proof.
  split; [reflexivity |]. split; [| reflexivity].
  intros [c [text H]]. discriminate H.
Qed.

(** * The further properties at work on the sample warehouses *)

Lemma drift_callout_any_value_witness :
  exists el : element value,
    latest_drift_status repr_unused
      (with_rows sql_latest_drift [[("DRIFT_STATUS", VNone)]] demo_session)
    = ([Sql sql_latest_drift; Draw (Column 2) el], inr tt)
    /\ el = Error "🚨 Drift Status: None".
Proof.
  destruct (drift_callout_any_value value repr_unused
              (with_rows sql_latest_drift [[("DRIFT_STATUS", VNone)]]
                 demo_session)
              [("DRIFT_STATUS", VNone)] [] VNone eq_refl eq_refl)
    as (el & Hrun & _ & _ & _ & Hnull).
  exists el. split; [exact Hrun | exact (Hnull eq_refl)].
Defined.

Lemma drift_callout_shows_status_witness :
  exists (el : element value) (text : string),
    drawn (events (latest_drift_status repr_unused demo_session)) =
      [(Column 2, el)]
    /\ ((el = Success text
         /\ text = ("✅ Drift Status: " ++ "WARNING")%string)
        \/ (el = Warning text
            /\ text = ("⚠️ Drift Status: " ++ "WARNING")%string)
        \/ (el = Error text
            /\ text = ("🚨 Drift Status: " ++ "WARNING")%string))
    /\ contains "WARNING" text = true.
Proof.
  apply (drift_callout_shows_status value repr_unused demo_session
           [("DRIFT_STATUS", VStr "WARNING")] [] (VStr "WARNING"));
    reflexivity.
Defined.

Lemma production_model_bad_mae_witness :
  production_model
    (with_rows sql_prod_model
       [[("MODEL_VERSION", VStr "v8"); ("MAE", VNone)]] demo_session)
  = ([Sql sql_prod_model;
      Draw (Column 1) (Metric "🏆 Production Model" (VStr "v8"))],
     inl TypeError).
Proof.
  apply (proj1 (production_model_bad_mae value
                  (with_rows sql_prod_model
                     [[("MODEL_VERSION", VStr "v8"); ("MAE", VNone)]]
                     demo_session)
                  [("MODEL_VERSION", VStr "v8"); ("MAE", VNone)] []
                  (VStr "v8") VNone TypeError
                  eq_refl eq_refl eq_refl eq_refl)).
Defined.

Lemma data_counts_both_or_neither_witness :
  drawn (events (data_counts repr_unused
                   (failing_at sql_feature_count
                      (SnowparkSQLException "no such table")
                      demo_session)))
  = [].
Proof.
  apply (proj1 (proj2 (data_counts_both_or_neither value repr_unused
                         (failing_at sql_feature_count
                            (SnowparkSQLException "no such table")
                            demo_session)))
           (SnowparkSQLException "no such table")).
  reflexivity.
Defined.

Lemma table_panel_one_element_witness :
  exists el : element value,
    table_render PipelineRuns
      (with_frame sql_runs_df
         (demo_frame ["PHASE"]
            [[VStr "a"]; [VStr "b"]; [VStr "c"]; [VStr "d"]; [VStr "e"];
             [VStr "f"]; [VStr "g"]; [VStr "h"]; [VStr "i"]; [VStr "j"];
             [VStr "k"]])
         demo_session)
    = ([Sql sql_runs_df; Draw Page el], inr tt)
    /\ el = Dataframe
              (demo_frame ["PHASE"]
                 [[VStr "a"]; [VStr "b"]; [VStr "c"]; [VStr "d"];
                  [VStr "e"]; [VStr "f"]; [VStr "g"]; [VStr "h"];
                  [VStr "i"]; [VStr "j"]; [VStr "k"]])
              true.
Proof.
  destruct (proj1 (table_panel_one_element value PipelineRuns
                     (with_frame sql_runs_df
                        (demo_frame ["PHASE"]
                           [[VStr "a"]; [VStr "b"]; [VStr "c"]; [VStr "d"];
                            [VStr "e"]; [VStr "f"]; [VStr "g"]; [VStr "h"];
                            [VStr "i"]; [VStr "j"]; [VStr "k"]])
                        demo_session))
              _ eq_refl)
    as (el & Hrun & Hframe & _).
  exists el. split; [exact Hrun |]. apply Hframe. cbn. lia.
Defined.

Lemma dashboard_completes_iff_witness :
  outcome (dashboard repr_unused demo_session) = inr tt
  /\ renders_fully empty_session = false.
Proof.
  split.
  - apply (proj2 (dashboard_completes_iff value repr_unused demo_session)).
    reflexivity.
  - destruct (renders_fully empty_session) eqn:H; [| reflexivity].
    apply (proj2 (dashboard_completes_iff value repr_unused empty_session))
      in H.
    discriminate H.
Defined.

Lemma failure_truncates_witness :
  dashboard repr_unused
    (failing_at sql_drift_df (SnowparkSQLException "timeout") demo_session)
  = (cut_at sql_drift_df (events (dashboard repr_unused demo_session)),
     inl (SnowparkSQLException "timeout")).
Proof.
  apply (proj1 (failure_truncates value repr_unused demo_session
                  sql_drift_df (SnowparkSQLException "timeout"))).
  reflexivity.
Defined.

Lemma only_row_zero_matters_witness :
  dashboard repr_unused demo_session =
    dashboard repr_unused
      (pad_rows [[("CNT", VInt 7)]; [("MAE", VNone)]] demo_session).
Proof.
  apply (only_row_zero_matters value repr_unused demo_session
           (pad_rows [[("CNT", VInt 7)]; [("MAE", VNone)]] demo_session)).
  - intros q. cbn [pad_rows sql_collect].
    destruct (sql_collect demo_session q) as [e | [| r rest]];
      reflexivity.
  - intros q. reflexivity.
Defined.

Lemma complete_page_shape_witness :
  length (drawn (events (dashboard repr_unused demo_session))) = 27%nat.
Proof.
  destruct (complete_page_shape value repr_unused demo_session eq_refl)
    as (version & mae & raw & features & history & drift & callout
        & comparison & runs & triggers & Hpage & _).
  rewrite Hpage. reflexivity.
Defined.

Lemma mae_float_to_nearest_integer_witness :
  exists n : Z,
    production_model
      (with_rows sql_prod_model
         [[("MODEL_VERSION", VStr "v8");
           ("MAE", VFloat (S754_finite false 5 (-1)))]]
         demo_session)
    = ([Sql sql_prod_model;
        Draw (Column 1) (Metric "🏆 Production Model" (VStr "v8"));
        Draw (Column 2)
          (Metric "📊 MAE"
             (VStr (sign_prefix false ++ group_thousands (str_of_int n))))],
       inr tt)
    /\ Z.even n = true.
Proof.
  destruct (mae_float_to_nearest_integer value
              (with_rows sql_prod_model
                 [[("MODEL_VERSION", VStr "v8");
                   ("MAE", VFloat (S754_finite false 5 (-1)))]]
                 demo_session)
              [("MODEL_VERSION", VStr "v8");
               ("MAE", VFloat (S754_finite false 5 (-1)))] []
              (VStr "v8") false 5 (-1) eq_refl eq_refl eq_refl)
    as (n & Hrun & Hpos & _ & Hnear).
  exists n. split; [exact Hrun |].
  destruct (Hnear ltac:(lia)) as [Hclose Htie].
  apply Htie. change (2 ^ (- (-1)))%Z with 2%Z in *. lia.
Defined.

Lemma mae_int_exact_witness :
  production_model demo_session =
    ([Sql sql_prod_model;
      Draw (Column 1) (Metric "🏆 Production Model" (VStr "v7"));
      Draw (Column 2) (Metric "📊 MAE" (VStr (comma_int 1234567)))],
     inr tt).
Proof.
  apply (proj1 (mae_int_exact value demo_session
                  [("MODEL_VERSION", VStr "v7"); ("MAE", VInt 1234567);
                   ("TRAINING_DATE", VStr "2024-05-01")] []
                  (VStr "v7") 1234567 eq_refl eq_refl eq_refl
                  ltac:(cbn; lia))).
Defined.
